(** * Key ring lifecycle of [ibm_kms_key_rings]

    A shallow embedding of [ibm/service/kms/resource_ibm_kms_key_rings.go]:
    the three resource operations [resourceIBMKmsKeyRingCreate],
    [resourceIBMKmsKeyRingRead] and [resourceIBMKmsKeyRingDelete], the
    identifier they persist, and the [key_ring_id] validator.

    Go values are modelled as follows.
    - [string] is a byte string; [strings.Split], [strings.Index] and
      [strings.Contains] are the functions of module [strings] below.
    - A Go function returning [error] either returns [nil], returns an
      error, or panics: type [outcome].
    - [*schema.ResourceData], the shared [*kp.Client] and the sequence of
      remote requests issued so far are threaded through a state monad.
    - [meta], the session with its remote services, is a record of answer
      functions; a remote answer may depend on the requests made before. *)

From Stdlib Require Import String Ascii List ZArith Lia Bool.
Import ListNotations.
Open Scope string_scope.

(** ** Go's [strings] package, as far as the resource uses it *)

Module strings.

(** [strings.HasPrefix(s, prefix)]. *)
Fixpoint HasPrefix (s prefix : string) {struct prefix} : bool :=
  match prefix, s with
  | EmptyString, _ => true
  | String p prefix', String c s' => Ascii.eqb p c && HasPrefix s' prefix'
  | String _ _, EmptyString => false
  end.

(** [strings.Index(s, substr)]: the byte offset of the first instance of
    [substr] in [s]; [None] stands for Go's [-1]. *)
Fixpoint Index (s substr : string) : option nat :=
  if HasPrefix s substr then Some 0
  else match s with
       | EmptyString => None
       | String _ s' => option_map S (Index s' substr)
       end.

(** [strings.Contains(s, substr)] is [Index(s, substr) >= 0]. *)
Definition Contains (s substr : string) : bool :=
  match Index s substr with Some _ => true | None => false end.

(** The slice expressions [s[:m]] and [s[m:]] for [m <= len(s)]. *)
Fixpoint sliceTo (m : nat) (s : string) : string :=
  match m, s with
  | S m', String c s' => String c (sliceTo m' s')
  | _, _ => EmptyString
  end.

Fixpoint sliceFrom (m : nat) (s : string) : string :=
  match m, s with
  | S m', String _ s' => sliceFrom m' s'
  | _, _ => s
  end.

(** The loop of [genSplit]:
    [m := Index(s, sep); if m < 0 { break }; a[i] = s[:m]; s = s[m+len(sep):]]
    and finally [a[i] = s].  Go bounds the loop by [Count(s, sep)]
    iterations; here [n] bounds it. *)
Fixpoint genSplit (n : nat) (s sep : string) : list string :=
  match n with
  | O => [s]
  | S n' =>
      match Index s sep with
      | None => [s]
      | Some m => sliceTo m s :: genSplit n' (sliceFrom (m + String.length sep) s) sep
      end
  end.

(** [explode]: one string per byte (Go explodes into UTF-8 sequences, the
    same on ASCII text). *)
Fixpoint explode (s : string) : list string :=
  match s with
  | EmptyString => []
  | String c s' => String c EmptyString :: explode s'
  end.

(** [strings.Split(s, sep)].  A non-empty separator removes at least one
    byte per iteration, so [length s] iterations reach the [break]. *)
Definition Split (s sep : string) : list string :=
  match sep with
  | EmptyString => explode s
  | String _ _ => genSplit (String.length s) s sep
  end.

End strings.

(** ** Values of the Go program *)

(** A Go [error].  The resource tells [*kp.Error], which carries the HTTP
    status code of the Key Protect response, from errors of any other
    dynamic type (transport failures, [fmt.Errorf] values, ...). *)
Inductive goerror : Type :=
| KpError (StatusCode : Z) (text : string)
| PlainError (text : string).

(** [err.Error()]. *)
Definition Error (e : goerror) : string :=
  match e with
  | KpError _ text => text
  | PlainError text => text
  end.

(** An [error] operand under the verb [%s]; a nil interface prints as
    [%!s(<nil>)]. *)
Definition fmt_s (err : option goerror) : string :=
  match err with
  | Some e => Error e
  | None => "%!s(<nil>)"
  end.

(** [fmt.Errorf] builds an error that is not a [*kp.Error]. *)
Definition Errorf (text : string) : goerror := PlainError text.

(** How a Go function of result type [error] ends. *)
Inductive outcome : Type :=
| Nil
| Failed (err : goerror)
| Panicked (why : string).

(** [*schema.ResourceData]: the stored id and the three schema fields. *)
Record ResourceData : Type := mkResourceData {
  Id : string;
  instance_id : string;
  key_ring_id : string;
  endpoint_type : string
}.

(** The fields of [*kp.Client] the resource reads or assigns:
    [kpAPI.URL] (through [String()]), [kpAPI.Config.BaseURL] and
    [kpAPI.Config.InstanceID]. *)
Module kp.
Record Client : Type := mkClient {
  URL : string;
  BaseURL : string;
  InstanceID : string
}.
End kp.

(** [map[string]interface{}] of the instance; only handed on to
    [KmsEndpointURL]. *)
Definition Extensions : Type := list (string * string).

(** [*rc.ResourceInstance]; [CRN] is a [*string]. *)
Record ResourceInstance : Type := mkResourceInstance {
  CRN : option string;
  InstanceExtensions : Extensions
}.

(** An entry of [keyRings.KeyRings]. *)
Record KeyRing : Type := mkKeyRing {
  ID : string;
  CreatedBy : string
}.

(** The request built at lines 108-119. *)
Record Request : Type := mkRequest {
  req_url : string;
  authorization : string;
  bluemix_instance : string
}.

(** A request that leaves the process. *)
Inductive event : Type :=
| EvGetResourceInstance (id : string)
| EvHttpPost (req : Request)
| EvCreateKeyRing (kpAPI : kp.Client) (keyRingID : string)
| EvGetKeyRings (kpAPI : kp.Client)
| EvDeleteKeyRing (kpAPI : kp.Client) (keyRingID : string).

(** [meta.(conns.ClientSession)] and the services behind it.  The session
    accessors answer from the session; the remote calls answer from the
    service, given the requests already made.  [KmsEndpointURL] and
    [http.NewRequest] are defined outside [resource_ibm_kms_key_rings.go]
    and are taken as they answer. *)
Record meta : Type := mkMeta {
  KeyManagementAPI : option goerror;
  ResourceControllerV2API : option goerror;
  BluemixSession : string + goerror;
  GetResourceInstance :
    list event -> string -> option ResourceInstance * string * option goerror;
  KmsEndpointURL : kp.Client -> string -> Extensions -> string + goerror;
  NewRequest : string -> option goerror;
  Do : list event -> Request -> option goerror;
  CreateKeyRing : list event -> kp.Client -> string -> option goerror;
  GetKeyRings : list event -> kp.Client -> list KeyRing + goerror;
  DeleteKeyRing : list event -> kp.Client -> string -> option goerror
}.

(** ** The state monad of an operation *)

Record state : Type := mkState {
  d : ResourceData;
  kpAPI : kp.Client;
  trace : list event
}.

Inductive res (A : Type) : Type :=
| Val (a : A)
| Exit (o : outcome).
Arguments Val {A} a.
Arguments Exit {A} o.

Definition M (A : Type) : Type := state -> state * res A.

Definition ret {A} (a : A) : M A := fun s => (s, Val a).

Definition bind {A B} (m : M A) (k : A -> M B) : M B :=
  fun s =>
    match m s with
    | (s', Val a) => k a s'
    | (s', Exit o) => (s', Exit o)
    end.

Notation "x <- m ;; k" := (bind m (fun x => k))
  (at level 61, m at next level, right associativity).
Notation "m ;; k" := (bind m (fun _ => k))
  (at level 61, right associativity).

(** [return nil], [return err] and a run-time panic. *)
Definition return_nil {A} : M A := fun s => (s, Exit Nil).
Definition return_err {A} (err : goerror) : M A := fun s => (s, Exit (Failed err)).
Definition panic {A} (why : string) : M A := fun s => (s, Exit (Panicked why)).

(** [if err != nil { return err }]. *)
Definition check (err : option goerror) : M unit :=
  match err with
  | Some e => return_err e
  | None => ret tt
  end.

Definition get_d : M ResourceData := fun s => (s, Val (d s)).
Definition get_kpAPI : M kp.Client := fun s => (s, Val (kpAPI s)).

Definition put_d (d' : ResourceData) : M unit :=
  fun s => (mkState d' (kpAPI s) (trace s), Val tt).
Definition put_kpAPI (c : kp.Client) : M unit :=
  fun s => (mkState (d s) c (trace s), Val tt).

(** A remote call: the request is recorded, the answer is the service's
    answer after the requests before it. *)
Definition remote {A} (ev : event) (answer : list event -> A) : M A :=
  fun s => (mkState (d s) (kpAPI s) (trace s ++ [ev]), Val (answer (trace s))).

(** [d.SetId(v)] and [d.Set(key, v)] for the three fields. *)
Definition SetId (v : string) : M unit :=
  r <- get_d ;; put_d (mkResourceData v (instance_id r) (key_ring_id r) (endpoint_type r)).
Definition Set_instance_id (v : string) : M unit :=
  r <- get_d ;; put_d (mkResourceData (Id r) v (key_ring_id r) (endpoint_type r)).
Definition Set_key_ring_id (v : string) : M unit :=
  r <- get_d ;; put_d (mkResourceData (Id r) (instance_id r) v (endpoint_type r)).
Definition Set_endpoint_type (v : string) : M unit :=
  r <- get_d ;; put_d (mkResourceData (Id r) (instance_id r) (key_ring_id r) v).

(** [len(a)] as a Go [int] and the index expression [a[i]], which panics
    out of range. *)
Definition len {A} (a : list A) : Z := Z.of_nat (List.length a).

Definition index (a : list string) (i : Z) : M string :=
  if ((0 <=? i) && (i <? len a))%Z
  then ret (nth (Z.to_nat i) a "")
  else panic "index out of range".

(** The result of an operation started in state [s]. *)
Definition run (op : M Empty_set) (s : state) : state * outcome :=
  match op s with
  | (s', Val v) => match v with end
  | (s', Exit o) => (s', o)
  end.

Notation "' pat <- m ;; k" := (bind m (fun x => match x with pat => k end))
  (at level 61, pat pattern, m at next level, right associativity).

(** Dereferencing a pointer, [p.f] or [*p], panics on nil. *)
Definition deref {A} (p : option A) : M A :=
  match p with
  | Some a => ret a
  | None => panic "invalid memory address or nil pointer dereference"
  end.

Definition is_nil {A} (p : option A) : bool :=
  match p with Some _ => false | None => true end.

(** [v, err := f(); if err != nil { return wrap(err) }]. *)
Definition check_val {A} (v : A + goerror) (wrap : goerror -> goerror) : M A :=
  match v with
  | inl a => ret a
  | inr e => return_err (wrap e)
  end.

(** [kpAPI.URL = URL] and [kpAPI.Config.InstanceID = instanceID]. *)
Definition set_URL (u : string) : M unit :=
  c <- get_kpAPI ;; put_kpAPI (kp.mkClient u (kp.BaseURL c) (kp.InstanceID c)).
Definition set_InstanceID (i : string) : M unit :=
  c <- get_kpAPI ;; put_kpAPI (kp.mkClient (kp.URL c) (kp.BaseURL c) i).

(** A remote call on the Key Protect client as configured at the call. *)
Definition remote_kp {A} (ev : kp.Client -> event) (answer : list event -> kp.Client -> A) : M A :=
  c <- get_kpAPI ;; remote (ev c) (fun h => answer h c).

(** ** [ResourceIBMKeyRingValidator] *)

(** The character class [[a-zA-Z0-9-]] of the validator's [Regexp]. *)
Definition key_ring_id_char (c : ascii) : bool :=
  let n := nat_of_ascii c in
  ((97 <=? n) && (n <=? 122) || (65 <=? n) && (n <=? 90)
   || (48 <=? n) && (n <=? 57) || (n =? 45))%nat.

(** A match of [^[a-zA-Z0-9-]*$]. *)
Fixpoint Regexp (s : string) : bool :=
  match s with
  | EmptyString => true
  | String c s' => key_ring_id_char c && Regexp s'
  end.

Definition MinValueLength : nat := 2.
Definition MaxValueLength : nat := 100.

(** [validate.ValidateRegexpLen] with the schema of [key_ring_id]: the
    length lies between the two bounds and the regular expression
    matches. *)
Definition ResourceIBMKeyRingValidator (value : string) : bool :=
  ((MinValueLength <=? String.length value)
   && (String.length value <=? MaxValueLength))%nat
  && Regexp value.

(** ** The three operations *)

(** Line 145: [fmt.Sprintf("%s:keyRing:%s", keyRing, *instanceCRN)]. *)
Definition external_id (keyRing instanceCRN : string) : string :=
  keyRing ++ ":keyRing:" ++ instanceCRN.

(** Lines 133 and 138-143: the first listed id equal to [keyRingID], the
    zero value [""] when there is none. *)
Fixpoint find_keyRing (keyRingID : string) (KeyRings : list KeyRing) : string :=
  match KeyRings with
  | [] => ""
  | v :: rest =>
      if String.eqb (ID v) keyRingID then ID v else find_keyRing keyRingID rest
  end.

Definition resourceIBMKmsKeyRingRead (m : meta) : M Empty_set :=
  check (KeyManagementAPI m) ;;
  r <- get_d ;;
  let id := strings.Split (Id r) ":keyRing:" in
  if (len id <? 2)%Z then
    return_err (Errorf ("[ERROR] Incorrect ID " ++ Id r ++
      ": Id should be a combination of keyRingID:keyRing:InstanceCRN"))
  else
  crn <- index id 1 ;;
  let crnData := strings.Split crn ":" in
  let endpointType := endpoint_type r in
  instanceID <- index crnData (len crnData - 3) ;;
  check (ResourceControllerV2API m) ;;
  '(instanceData, resp, err) <-
    remote (EvGetResourceInstance instanceID)
           (fun h => GetResourceInstance m h instanceID) ;;
  if negb (is_nil err) || is_nil instanceData then
    return_err (Errorf ("[ERROR] Error retrieving resource instance: " ++
      fmt_s err ++ " with resp code: " ++ resp))
  else
  i <- deref instanceData ;;
  let extensions := InstanceExtensions i in
  c <- get_kpAPI ;;
  URL <- check_val (KmsEndpointURL m c endpointType extensions) (fun e => e) ;;
  set_URL URL ;;
  set_InstanceID instanceID ;;
  rings <- remote_kp EvGetKeyRings (GetKeyRings m) ;;
  match rings with
  | inr err =>
      match err with
      | KpError StatusCode _ =>
          if ((StatusCode =? 404) || (StatusCode =? 409))%Z then
            SetId "" ;; return_nil
          else
            return_err (Errorf ("[ERROR] Get Key Rings failed with error: " ++ Error err))
      | PlainError _ => panic "interface conversion: error is not *kp.Error"
      end
  | inl _ =>
      Set_instance_id instanceID ;;
      c <- get_kpAPI ;;
      (if strings.Contains (kp.URL c) "private"
          || strings.Contains (kp.BaseURL c) "private"
       then Set_endpoint_type "private"
       else Set_endpoint_type "public") ;;
      id0 <- index id 0 ;;
      Set_key_ring_id id0 ;;
      return_nil
  end.

Definition resourceIBMKmsKeyRingCreate (m : meta) : M Empty_set :=
  check (KeyManagementAPI m) ;;
  r <- get_d ;;
  let instanceID := instance_id r in
  let CrnInstanceID := strings.Split instanceID ":" in
  instanceID <- (if (3 <? len CrnInstanceID)%Z
                 then index CrnInstanceID (len CrnInstanceID - 3)
                 else ret instanceID) ;;
  let endpointType := endpoint_type r in
  let keyRingID := key_ring_id r in
  check (ResourceControllerV2API m) ;;
  '(instanceData, resp, err) <-
    remote (EvGetResourceInstance instanceID)
           (fun h => GetResourceInstance m h instanceID) ;;
  i <- deref instanceData ;;
  let instanceCRN := CRN i in
  if negb (is_nil err) || is_nil instanceData then
    return_err (Errorf ("[ERROR] Error retrieving resource instance: " ++
      fmt_s err ++ " with resp code: " ++ resp))
  else
  let extensions := InstanceExtensions i in
  c <- get_kpAPI ;;
  URL <- check_val (KmsEndpointURL m c endpointType extensions) (fun e => e) ;;
  set_URL URL ;;
  set_InstanceID instanceID ;;
  let tmpUrl := URL ++ "/api/v2/key_rings/" ++ keyRingID in
  check (option_map (fun tmpErr =>
           Errorf ("FIX: could not create request: " ++ Error tmpErr))
         (NewRequest m tmpUrl)) ;;
  IAMAccessToken <- check_val (BluemixSession m) (fun tmpErr =>
           Errorf ("FIX: Could not retrieve access token: " ++ Error tmpErr)) ;;
  let tmpReq := mkRequest tmpUrl IAMAccessToken instanceID in
  tmpErr2 <- remote (EvHttpPost tmpReq) (fun h => Do m h tmpReq) ;;
  check (option_map (fun e =>
           Errorf ("FIX: could not execute request (" ++ tmpUrl ++ "): " ++ Error e))
         tmpErr2) ;;
  err <- remote_kp (fun c => EvCreateKeyRing c keyRingID)
                   (fun h c => CreateKeyRing m h c keyRingID) ;;
  check (option_map (fun e =>
           Errorf ("[ERROR] Error while creating key ring (note: URL=" ++ URL ++
                   ", InstanceID=" ++ instanceID ++ ", KeyRingId=" ++ keyRingID ++
                   "): " ++ Error e))
         err) ;;
  rings <- remote_kp EvGetKeyRings (GetKeyRings m) ;;
  keyRings <- check_val rings (fun err2 =>
           Errorf ("[ERROR] Error while fetching key ring : " ++ Error err2)) ;;
  let keyRing := find_keyRing keyRingID keyRings in
  crn <- deref instanceCRN ;;
  SetId (external_id keyRing crn) ;;
  resourceIBMKmsKeyRingRead m.

Definition resourceIBMKmsKeyRingDelete (m : meta) : M Empty_set :=
  check (KeyManagementAPI m) ;;
  r <- get_d ;;
  let id := strings.Split (Id r) ":keyRing:" in
  crn <- index id 1 ;;
  let crnData := strings.Split crn ":" in
  let endpointType := endpoint_type r in
  instanceID <- index crnData (len crnData - 3) ;;
  check (ResourceControllerV2API m) ;;
  '(instanceData, resp, err) <-
    remote (EvGetResourceInstance instanceID)
           (fun h => GetResourceInstance m h instanceID) ;;
  if negb (is_nil err) || is_nil instanceData then
    return_err (Errorf ("[ERROR] Error retrieving resource instance: " ++
      fmt_s err ++ " with resp code: " ++ resp))
  else
  i <- deref instanceData ;;
  let extensions := InstanceExtensions i in
  c <- get_kpAPI ;;
  URL <- check_val (KmsEndpointURL m c endpointType extensions) (fun e => e) ;;
  set_URL URL ;;
  set_InstanceID instanceID ;;
  id0 <- index id 0 ;;
  err1 <- remote_kp (fun c => EvDeleteKeyRing c id0)
                    (fun h c => DeleteKeyRing m h c id0) ;;
  match err1 with
  | Some (KpError StatusCode text) =>
      if ((StatusCode =? 404) || (StatusCode =? 409))%Z then return_nil
      else return_err (Errorf (" failed to Destroy key ring with error: " ++
                               Error (KpError StatusCode text)))
  | Some (PlainError _) => panic "interface conversion: error is not *kp.Error"
  | None => return_nil
  end.

(** ** What a run is observed by *)

(** The requests an operation started in [s] issues: what it appends to
    the requests made before. *)
Definition requests (op : M Empty_set) (s : state) : list event :=
  skipn (List.length (trace s)) (trace (fst (run op s))).

(** The value of [crnData[len(crnData)-3]] (lines 160-162 and 210-212)
    for a CRN of at least three segments. *)
Definition instance_segment (crn : string) : string :=
  let crnData := strings.Split crn ":" in
  nth (Z.to_nat (len crnData - 3)) crnData "".

(** [no_byte c s]: the byte [c] does not occur in [s]. *)
Fixpoint no_byte (c : ascii) (s : string) : Prop :=
  match s with
  | EmptyString => True
  | String x s' => x <> c /\ no_byte c s'
  end.

(** The remote operation a request asks for. *)
Inductive kind : Type :=
| Lookup | Post | CreateRing | ListRings | DeleteRing.

Definition kind_of (ev : event) : kind :=
  match ev with
  | EvGetResourceInstance _ => Lookup
  | EvHttpPost _ => Post
  | EvCreateKeyRing _ _ => CreateRing
  | EvGetKeyRings _ => ListRings
  | EvDeleteKeyRing _ _ => DeleteRing
  end.

Definition kind_eqb (a b : kind) : bool :=
  match a, b with
  | Lookup, Lookup | Post, Post | CreateRing, CreateRing
  | ListRings, ListRings | DeleteRing, DeleteRing => true
  | _, _ => false
  end.

Definition count_kind (k : kind) (evs : list event) : nat :=
  List.length (filter (fun ev => kind_eqb (kind_of ev) k) evs).

(** The order in which a complete Create issues its requests: lines 94,
    123, 129, 134, and lines 172 and 183 of the Read it ends with. *)
Definition create_plan : list kind :=
  [Lookup; Post; CreateRing; ListRings; Lookup; ListRings].

(** ** A concrete service

    An instance ["123"] of account [a/abc] with Key Protect behind it, used
    to run the operations on concrete inputs. *)

Module demo.

Definition crn : string := "crn:v1:bluemix:public:kms:us-south:a/abc:123::".

Definition instance : ResourceInstance :=
  mkResourceInstance (Some crn)
    [("public", "https://us-south.kms.cloud.ibm.com");
     ("private", "https://private.us-south.kms.cloud.ibm.com")].

(** The resource controller knows instance ["123"] only. *)
Definition lookup (h : list event) (id : string)
  : option ResourceInstance * string * option goerror :=
  if String.eqb id "123" then (Some instance, "200", None)
  else (None, "404", Some (PlainError "Instance not found")).

(** The resource controller after the instance has been removed. *)
Definition lookup_gone (h : list event) (id : string)
  : option ResourceInstance * string * option goerror :=
  (None, "404", Some (PlainError "Instance not found")).

(** The key rings of the instance: ["default"] and every ring a
    [CreateKeyRing] request asked for. *)
Fixpoint rings_of (h : list event) : list KeyRing :=
  match h with
  | [] => [mkKeyRing "default" "system"]
  | EvCreateKeyRing _ k :: h' => rings_of h' ++ [mkKeyRing k "user"]
  | _ :: h' => rings_of h'
  end.

Definition list_rings (h : list event) (c : kp.Client) : list KeyRing + goerror :=
  inl (rings_of h).

(** A listing that never shows a created ring. *)
Definition list_stale (h : list event) (c : kp.Client) : list KeyRing + goerror :=
  inl [mkKeyRing "default" "system"].

Definition list_fails (e : goerror) (h : list event) (c : kp.Client)
  : list KeyRing + goerror := inr e.

Definition service
  (lookup : list event -> string -> option ResourceInstance * string * option goerror)
  (list : list event -> kp.Client -> list KeyRing + goerror)
  (delete : option goerror) : meta :=
  mkMeta None None (inl "Bearer t0ken") lookup
    (fun _ _ _ => inl "https://us-south.kms.cloud.ibm.com/api/v2/keys")
    (fun _ => None) (fun _ _ => None) (fun _ _ _ => None)
    list (fun _ _ _ => delete).

Definition world : meta := service lookup list_rings None.

Definition client0 : kp.Client :=
  kp.mkClient "" "https://us-south.kms.cloud.ibm.com" "".

(** The state in which the framework calls an operation: stored id [id]
    and the configured fields. *)
Definition start (id instance_id key_ring_id : string) : state :=
  mkState (mkResourceData id instance_id key_ring_id "") client0 [].

Definition finance_id : string :=
  "finance-keys:keyRing:crn:v1:bluemix:public:kms:us-south:a/abc:123::".

End demo.

(** ** The schema and further services *)


(** The order in which Read (lines 172, 183) and Delete (lines 222, 233)
    issue their requests. *)
Definition read_plan : list kind := [Lookup; ListRings].
Definition delete_plan : list kind := [Lookup; DeleteRing].

(** Lines 78-82: the instance id Create looks up, the segment at
    [len-3] of a value of more than three segments, else the value. *)
Definition create_instance_id (instanceID : string) : string :=
  if (3 <? len (strings.Split instanceID ":"))%Z
  then instance_segment instanceID
  else instanceID.

(** Services in which one step fails. *)
Module cases.

(** No Key Protect client can be had from the session. *)
Definition no_client (e : goerror) : meta :=
  mkMeta (Some e) None (inl "Bearer t0ken") demo.lookup
    (fun _ _ _ => inl "https://us-south.kms.cloud.ibm.com/api/v2/keys")
    (fun _ => None) (fun _ _ => None) (fun _ _ _ => None)
    demo.list_rings (fun _ _ _ => None).

(** The instance advertises no endpoint of the wanted type. *)
Definition no_endpoint (e : goerror) : meta :=
  mkMeta None None (inl "Bearer t0ken") demo.lookup
    (fun _ _ _ => inr e)
    (fun _ => None) (fun _ _ => None) (fun _ _ _ => None)
    demo.list_rings (fun _ _ _ => None).

(** The raw POST of Create fails in the transport. *)
Definition post_fails (e : goerror) : meta :=
  mkMeta None None (inl "Bearer t0ken") demo.lookup
    (fun _ _ _ => inl "https://us-south.kms.cloud.ibm.com/api/v2/keys")
    (fun _ => None) (fun _ _ => Some e) (fun _ _ _ => None)
    demo.list_rings (fun _ _ _ => None).

(** Key Protect refuses to create the ring. *)
Definition create_fails (e : goerror) : meta :=
  mkMeta None None (inl "Bearer t0ken") demo.lookup
    (fun _ _ _ => inl "https://us-south.kms.cloud.ibm.com/api/v2/keys")
    (fun _ => None) (fun _ _ => None) (fun _ _ _ => Some e)
    demo.list_rings (fun _ _ _ => None).


(** The lookup returns an instance without a CRN. *)
Definition lookup_no_crn (h : list event) (id : string)
  : option ResourceInstance * string * option goerror :=
  (Some (mkResourceInstance None []), "200", None).

(** The lookup returns the instance together with an error. *)
Definition lookup_partial (e : goerror) (h : list event) (id : string)
  : option ResourceInstance * string * option goerror :=
  (Some demo.instance, "500", Some e).

(** Key Protect lists no key ring at all. *)
Definition list_empty (h : list event) (c : kp.Client) : list KeyRing + goerror :=
  inl [].

(** The client and the requests of a run on instance ["123"]. *)
Definition client1 : kp.Client :=
  kp.mkClient "https://us-south.kms.cloud.ibm.com/api/v2/keys"
              "https://us-south.kms.cloud.ibm.com" "123".

Definition post1 : Request :=
  mkRequest
    "https://us-south.kms.cloud.ibm.com/api/v2/keys/api/v2/key_rings/finance-keys"
    "Bearer t0ken" "123".

End cases.

(** The tests the operations make on the answer to a request (lines 96,
    124, 130, 135, 173, 184, 223 and 234): the answer is a failure. *)
Definition answer_failed (m : meta) (h : list event) (ev : event) : bool :=
  match ev with
  | EvGetResourceInstance i =>
      let '(data, _, err) := GetResourceInstance m h i in
      negb (is_nil err) || is_nil data
  | EvHttpPost p => negb (is_nil (Do m h p))
  | EvCreateKeyRing c k => negb (is_nil (CreateKeyRing m h c k))
  | EvGetKeyRings c =>
      match GetKeyRings m h c with inl _ => false | inr _ => true end
  | EvDeleteKeyRing c k => negb (is_nil (DeleteKeyRing m h c k))
  end.

(** ** Facts about [strings] *)

Section strings_facts.

Import strings.

Lemma HasPrefix_app (p s : string) : HasPrefix (p ++ s) p = true.
Proof.
  induction p as [|c p IH]; simpl; [reflexivity|].
  now rewrite Ascii.eqb_refl, IH.
Qed.

Lemma sliceTo_app (a b : string) : sliceTo (String.length a) (a ++ b) = a.
Proof.
  induction a as [|c a IH]; simpl.
  - now destruct b.
  - now rewrite IH.
Qed.

Lemma sliceFrom_app (a b : string) : sliceFrom (String.length a) (a ++ b) = b.
Proof.
  induction a as [|c a IH]; simpl; [now destruct b | exact IH].
Qed.

Lemma sliceFrom_app2 (a sep b : string) :
  sliceFrom (String.length a + String.length sep) (a ++ sep ++ b) = b.
Proof.
  induction a as [|c a IH]; simpl; [apply sliceFrom_app | exact IH].
Qed.

Lemma length_app (a b : string) :
  String.length (a ++ b) = String.length a + String.length b.
Proof.
  induction a as [|c a IH]; simpl; [reflexivity | now rewrite IH].
Qed.

(** Without an instance of the separator the loop stores [s] whole. *)
Lemma genSplit_no_sep (n : nat) (s sep : string) :
  Index s sep = None -> genSplit n s sep = [s].
Proof.
  intros H. destruct n; simpl; [reflexivity | now rewrite H].
Qed.

Lemma Split_no_sep (s sep : string) :
  sep <> "" -> Contains s sep = false -> Split s sep = [s].
Proof.
  intros Hsep H. unfold Contains in H.
  destruct (Index s sep) eqn:E; [discriminate|].
  destruct sep; [congruence|]. unfold Split. now apply genSplit_no_sep.
Qed.

Lemma sliceFrom_length (k : nat) (s : string) :
  String.length (sliceFrom k s) <= String.length s.
Proof.
  revert s. induction k as [|k IH]; intros s; [destruct s; simpl; lia|].
  destruct s as [|c s]; simpl; [lia|]. specialize (IH s). lia.
Qed.

Lemma Index_empty (c : ascii) (t : string) : Index "" (String c t) = None.
Proof. reflexivity. Qed.

(** The bound of the loop is never what ends it: any bound from the
    length of [s] on gives the same slices. *)
Lemma genSplit_bound (c : ascii) (t : string) (n n' : nat) (s : string) :
  String.length s <= n -> String.length s <= n' ->
  genSplit n s (String c t) = genSplit n' s (String c t).
Proof.
  revert n' s. induction n as [|n IH]; intros n' s Hn Hn'.
  - destruct s; [|simpl in Hn; lia].
    destruct n'; [reflexivity|]. cbn [genSplit]. now rewrite Index_empty.
  - destruct n' as [|n'].
    + destruct s; [|simpl in Hn'; lia]. cbn [genSplit]. now rewrite Index_empty.
    + cbn [genSplit]. destruct (Index s (String c t)) as [m|] eqn:E; [|reflexivity].
      f_equal. destruct s as [|x s]; [now rewrite Index_empty in E|].
      simpl in Hn, Hn'. cbn [String.length]. rewrite Nat.add_succ_r. cbn [sliceFrom].
      pose proof (sliceFrom_length (m + String.length t) s).
      apply IH; lia.
Qed.

(** [Split] obeys the loop of [genSplit] as Go runs it: cut at the first
    instance of the separator, go on behind it. *)
Lemma Split_step (c : ascii) (t s : string) :
  Split s (String c t) =
  match Index s (String c t) with
  | None => [s]
  | Some m =>
      sliceTo m s :: Split (sliceFrom (m + String.length (String c t)) s) (String c t)
  end.
Proof.
  unfold Split. destruct s as [|x s].
  - now rewrite Index_empty.
  - cbn [String.length genSplit].
    destruct (Index (String x s) (String c t)) as [m|]; [|reflexivity].
    f_equal. cbn [String.length]. rewrite Nat.add_succ_r. cbn [sliceFrom].
    pose proof (sliceFrom_length (m + String.length t) s).
    apply genSplit_bound; lia.
Qed.

(** The first instance of a separator that starts with byte [c], after a
    text free of [c], is right behind that text. *)
Lemma Index_after (c : ascii) (t a b : string) :
  no_byte c a ->
  Index (a ++ String c t ++ b) (String c t) = Some (String.length a).
Proof.
  induction a as [|x a IH]; intros Ha.
  - change ("" ++ String c t ++ b) with (String c (t ++ b)).
    cbn [Index String.length].
    change (String c (t ++ b)) with (String c t ++ b).
    now rewrite HasPrefix_app.
  - destruct Ha as [Hx Ha].
    assert (Hne : Ascii.eqb c x = false) by (apply Ascii.eqb_neq; congruence).
    change (String x a ++ String c t ++ b) with (String x (a ++ String c t ++ b)).
    cbn [Index HasPrefix String.length]. rewrite Hne. cbn [andb].
    now rewrite IH.
Qed.

Lemma Split_once (c : ascii) (t a b : string) :
  no_byte c a ->
  Contains b (String c t) = false ->
  Split (a ++ String c t ++ b) (String c t) = [a; b].
Proof.
  intros Ha Hb. unfold Contains in Hb.
  destruct (Index b (String c t)) eqn:Eb; [discriminate|].
  unfold Split.
  assert (Hlen : String.length (a ++ String c t ++ b)
                 = S (String.length a + String.length t + String.length b)).
  { rewrite !length_app. simpl. lia. }
  rewrite Hlen. cbn [genSplit]. rewrite (Index_after c t a b Ha).
  rewrite sliceTo_app, sliceFrom_app2. now rewrite genSplit_no_sep.
Qed.

(** The bytes the validator admits exclude the colon. *)
Lemma Regexp_no_colon (s : string) : Regexp s = true -> no_byte ":" s.
Proof.
  induction s as [|x s IH]; simpl; [trivial|].
  intros H. apply andb_prop in H. destruct H as [Hx Hs]. split; [|auto].
  intros ->. vm_compute in Hx. discriminate.
Qed.

End strings_facts.

(** ** The composite identifier *)

Lemma index_in_range (a : list string) (i : Z) (s : state) :
  (0 <= i < len a)%Z -> index a i s = (s, Val (nth (Z.to_nat i) a "")).
Proof.
  intros H. unfold index.
  replace ((0 <=? i)%Z && (i <? len a)%Z) with true; [reflexivity|].
  symmetry. apply andb_true_iff. split; [apply Z.leb_le | apply Z.ltb_lt]; lia.
Qed.

Lemma index_out_of_range (a : list string) (i : Z) (s : state) :
  (i < 0 \/ len a <= i)%Z -> index a i s = (s, Exit (Panicked "index out of range")).
Proof.
  intros H. unfold index.
  replace ((0 <=? i)%Z && (i <? len a)%Z) with false; [reflexivity|].
  symmetry. apply andb_false_iff.
  destruct H; [left; apply Z.leb_gt | right; apply Z.ltb_ge]; lia.
Qed.

(** C1, as corrected: for every [key_ring_id] the validator accepts and
    every CRN of at least three colon-delimited segments that holds no
    instance of [":keyRing:"], the split Read performs on
    [key_ring_id + ":keyRing:" + crn] has exactly the two elements
    [key_ring_id] and [crn], so [id[0]] and [id[1]] give the pair back,
    and the segment at [len(crnData)-3] of the CRN is in range. *)
Theorem C1_decode_encode (keyRingID crn : string) :
  ResourceIBMKeyRingValidator keyRingID = true ->
  (3 <= len (strings.Split crn ":"))%Z ->
  strings.Contains crn ":keyRing:" = false ->
  strings.Split (external_id keyRingID crn) ":keyRing:" = [keyRingID; crn] /\
  forall s, index (strings.Split crn ":") (len (strings.Split crn ":") - 3) s
            = (s, Val (instance_segment crn)).
Proof.
  intros Hv Hlen Hc. unfold ResourceIBMKeyRingValidator in Hv.
  apply andb_prop in Hv. destruct Hv as [_ Hre]. split.
  - unfold external_id. apply Split_once; [now apply Regexp_no_colon | exact Hc].
  - intros s. now rewrite index_in_range by lia.
Qed.

Lemma C1_decode_encode_witness :
  strings.Split (external_id "finance-keys" demo.crn) ":keyRing:"
  = ["finance-keys"; demo.crn] /\
  forall s, index (strings.Split demo.crn ":")
                  (len (strings.Split demo.crn ":") - 3) s
            = (s, Val (instance_segment demo.crn)).
Proof.
  apply (C1_decode_encode "finance-keys" demo.crn); vm_compute; congruence.
Defined.

(** C1 as stated fails: a CRN of three segments may itself hold
    [":keyRing:"]; the split then cuts it and [id[1]] is not the CRN. *)
Lemma C1_counterexample :
  ResourceIBMKeyRingValidator "ab" = true /\
  (3 <= len (strings.Split "x:keyRing:y" ":"))%Z /\
  strings.Split (external_id "ab" "x:keyRing:y") ":keyRing:" = ["ab"; "x"; "y"] /\
  nth 1 (strings.Split (external_id "ab" "x:keyRing:y") ":keyRing:") ""
    <> "x:keyRing:y".
Proof.
  repeat split; try reflexivity; vm_compute; congruence.
Qed.

(** ** Stepping through an operation *)

Section lists.

Context {A : Type}.

(** The last element of a list determines a decomposition [h ++ [a]]. *)
Lemma snoc_eq_inv (l h : list A) (a : A) :
  l = (h ++ [a])%list ->
  match rev l with
  | [] => False
  | b :: r => b = a /\ h = rev r
  end.
Proof.
  intros ->. rewrite rev_app_distr. simpl. split; [reflexivity|].
  now rewrite rev_involutive.
Qed.

Lemma list_eq_inv (l l' : list A) :
  l = l' ->
  match l, l' with
  | a :: r, b :: r' => a = b /\ r = r'
  | [], [] => True
  | _, _ => False
  end.
Proof. intros ->. destruct l'; auto. Qed.

Lemma skipn_length_app (l x : list A) : skipn (List.length l) (l ++ x) = x.
Proof. induction l; simpl; auto. Qed.

End lists.

Lemma pair_eq_inv {A B} (a a' : A) (b b' : B) :
  (a, b) = (a', b') -> a = a' /\ b = b'.
Proof. intros H. now inversion H. Qed.

Lemma event_eq_inv (e1 e2 : event) :
  e1 = e2 ->
  match e1, e2 with
  | EvGetResourceInstance a, EvGetResourceInstance b => a = b
  | EvHttpPost a, EvHttpPost b => a = b
  | EvCreateKeyRing c a, EvCreateKeyRing c' b => c = c' /\ a = b
  | EvGetKeyRings c, EvGetKeyRings c' => c = c'
  | EvDeleteKeyRing c a, EvDeleteKeyRing c' b => c = c' /\ a = b
  | _, _ => False
  end.
Proof. intros ->. destruct e2; auto. Qed.

Lemma run_exit (op : M Empty_set) (s s' : state) (o : outcome) :
  op s = (s', Exit o) -> run op s = (s', o).
Proof. intros H. unfold run. now rewrite H. Qed.

(** Unfolds the monad around the calls of an operation. *)
Ltac unfold_op :=
  cbv beta iota zeta delta
    [run bind ret check check_val deref return_nil return_err panic
     get_d get_kpAPI put_d put_kpAPI remote remote_kp
     SetId Set_instance_id Set_key_ring_id Set_endpoint_type set_URL set_InstanceID
     index is_nil negb orb option_map fst snd d kpAPI trace
     kp.URL kp.BaseURL kp.InstanceID].

Ltac no_match x :=
  lazymatch x with
  | context [if _ then _ else _] => fail
  | context [match _ with Some _ => _ | None => _ end] => fail
  | context [match _ with inl _ => _ | inr _ => _ end] => fail
  | context [match _ with (_, _) => _ end] => fail
  | context [match _ with KpError _ _ => _ | PlainError _ => _ end] => fail
  | _ => idtac
  end.

(** Splits on the next answer or test the operation depends on. *)
Ltac case_step :=
  match goal with
  | |- context [GetResourceInstance ?m ?h ?i] =>
      destruct (GetResourceInstance m h i) as [[? ?] ?] eqn:?
  | |- context [match ?x with Some _ => _ | None => _ end] => no_match x; destruct x eqn:?
  | |- context [match ?x with inl _ => _ | inr _ => _ end] => no_match x; destruct x eqn:?
  | |- context [match ?x with KpError _ _ => _ | PlainError _ => _ end] => no_match x; destruct x eqn:?
  | |- context [if ?x then _ else _] => no_match x; destruct x eqn:?
  end.

(** All the ways through an operation; the goal is [run op s = _ -> _],
    the other premises wait in the context. *)
Ltac explode :=
  let Hrun := fresh "Hrun" in
  intros Hrun; intros; revert Hrun;
  unfold_op; repeat (case_step; unfold_op).

(** The run has ended in the state and outcome of the goal's premise. *)
Ltac finished :=
  let Hrun := fresh "Hrun" in
  intros Hrun; apply pair_eq_inv in Hrun; destruct Hrun; subst.

(** Closes a branch whose index checks contradict each other. *)
Ltac range_clash :=
  exfalso;
  repeat match goal with
         | H : _ = true |- _ =>
             rewrite ?andb_true_iff, ?Z.leb_le, ?Z.ltb_lt in H
         | H : _ = false |- _ =>
             rewrite ?andb_false_iff, ?Z.leb_gt, ?Z.ltb_ge in H
         end;
  unfold len in *; lia.

Ltac strip_trace H :=
  cbn [trace] in H; try rewrite <- !app_assoc in H;
  first [apply app_inv_head in H
        | rewrite <- (app_nil_r (A:=event)) in H at 1; apply app_inv_head in H];
  cbn [app] in H.

Ltac same_event E :=
  apply event_eq_inv in E; cbn iota in E;
  first [contradiction | destruct E; subst | subst].

(** From [trace s' = trace s ++ h ++ [ev]]: the last request is [ev]. *)
Ltac last_request H :=
  strip_trace H; apply snoc_eq_inv in H; cbn [rev app] in H;
  first [contradiction
        | let E := fresh "E" in destruct H as [E H]; same_event E].

(** From [trace s' = trace s ++ ev :: h]: the first request is [ev]. *)
Ltac first_request H :=
  strip_trace H; apply list_eq_inv in H; cbn iota in H;
  first [contradiction
        | let E := fresh "E" in destruct H as [E H]; same_event E].

Ltac use_answers :=
  cbn [trace app d];
  repeat match goal with H : _ = _ |- _ => rewrite H end.

(** ** Read and Delete, by the answer of the service *)

(** What Delete returns once it has issued the delete request. *)
Lemma Delete_classifies (m : meta) (s s' : state) (o : outcome)
      (h0 : list event) (c : kp.Client) (k : string) :
  run (resourceIBMKmsKeyRingDelete m) s = (s', o) ->
  trace s' = (trace s ++ h0 ++ [EvDeleteKeyRing c k])%list ->
  o = match DeleteKeyRing m (trace s ++ h0)%list c k with
      | Some (KpError code text) =>
          if ((code =? 404) || (code =? 409))%Z then Nil
          else Failed (Errorf (" failed to Destroy key ring with error: " ++ text))
      | Some (PlainError _) => Panicked "interface conversion: error is not *kp.Error"
      | None => Nil
      end.
Proof.
  destruct s as [d0 [u0 b0 i0] t0].
  match goal with |- _ -> _ -> ?r => remember r as cls eqn:Hcls end.
  unfold resourceIBMKmsKeyRingDelete. explode.
  all: finished; last_request H.
  all: use_answers; reflexivity.
Qed.

(** What Read returns and stores once it has issued the list request. *)
Lemma Read_classifies (m : meta) (s s' : state) (o : outcome)
      (h0 : list event) (c : kp.Client) :
  run (resourceIBMKmsKeyRingRead m) s = (s', o) ->
  trace s' = (trace s ++ h0 ++ [EvGetKeyRings c])%list ->
  match GetKeyRings m (trace s ++ h0)%list c with
  | inl _ =>
      o = Nil /\ Id (d s') = Id (d s) /\
      instance_id (d s') =
        instance_segment (nth 1 (strings.Split (Id (d s)) ":keyRing:") "") /\
      key_ring_id (d s') = nth 0 (strings.Split (Id (d s)) ":keyRing:") "" /\
      endpoint_type (d s') =
        (if strings.Contains (kp.URL c) "private"
            || strings.Contains (kp.BaseURL c) "private"
         then "private" else "public")
  | inr (KpError code text) =>
      if ((code =? 404) || (code =? 409))%Z
      then o = Nil /\ Id (d s') = ""
      else o = Failed (Errorf ("[ERROR] Get Key Rings failed with error: " ++ text))
           /\ d s' = d s
  | inr (PlainError _) =>
      o = Panicked "interface conversion: error is not *kp.Error" /\ d s' = d s
  end.
Proof.
  destruct s as [d0 [u0 b0 i0] t0].
  match goal with |- _ -> _ -> ?r => remember r as cls eqn:Hcls end.
  unfold resourceIBMKmsKeyRingRead. explode.
  all: finished; last_request H.
  all: use_answers;
    cbn [kp.URL kp.BaseURL orb Id instance_id key_ring_id endpoint_type];
    repeat match goal with H : _ = _ |- _ => rewrite H end;
    repeat split; try reflexivity; range_clash.
Qed.

(** A failed instance lookup ends Read with an error, the record
    untouched. *)
Lemma Read_lookup_failure (m : meta) (s s' : state) (o : outcome)
      (i : string) (h1 : list event)
      (data : option ResourceInstance) (resp : string) (err : option goerror) :
  run (resourceIBMKmsKeyRingRead m) s = (s', o) ->
  trace s' = (trace s ++ EvGetResourceInstance i :: h1)%list ->
  GetResourceInstance m (trace s) i = (data, resp, err) ->
  err <> None \/ data = None ->
  o = Failed (Errorf ("[ERROR] Error retrieving resource instance: " ++
                      fmt_s err ++ " with resp code: " ++ resp))
  /\ d s' = d s /\ h1 = [].
Proof.
  destruct s as [d0 [u0 b0 i0] t0].
  unfold resourceIBMKmsKeyRingRead. explode.
  all: finished; first_request H.
  all: cbn [trace d] in *.
  all: match goal with Hfail : _ \/ _ |- _ => try (destruct Hfail; congruence) end.
  all: repeat split; try reflexivity; congruence.
Qed.

(** The same for Delete. *)
Lemma Delete_lookup_failure (m : meta) (s s' : state) (o : outcome)
      (i : string) (h1 : list event)
      (data : option ResourceInstance) (resp : string) (err : option goerror) :
  run (resourceIBMKmsKeyRingDelete m) s = (s', o) ->
  trace s' = (trace s ++ EvGetResourceInstance i :: h1)%list ->
  GetResourceInstance m (trace s) i = (data, resp, err) ->
  err <> None \/ data = None ->
  o = Failed (Errorf ("[ERROR] Error retrieving resource instance: " ++
                      fmt_s err ++ " with resp code: " ++ resp))
  /\ d s' = d s /\ h1 = [].
Proof.
  destruct s as [d0 [u0 b0 i0] t0].
  unfold resourceIBMKmsKeyRingDelete. explode.
  all: finished; first_request H.
  all: cbn [trace d] in *.
  all: match goal with Hfail : _ \/ _ |- _ => try (destruct Hfail; congruence) end.
  all: repeat split; try reflexivity; congruence.
Qed.

(** ** The requests of a run *)

Ltac pick_prefix :=
  first [exists 0; reflexivity | exists 1; reflexivity | exists 2; reflexivity
        | exists 3; reflexivity | exists 4; reflexivity | exists 5; reflexivity
        | exists 6; reflexivity].

(** Read asks for the instance, then for the key rings, and stops at the
    first failure. *)
Lemma Read_requests (m : meta) (s s' : state) (o : outcome) :
  run (resourceIBMKmsKeyRingRead m) s = (s', o) ->
  exists x, trace s' = (trace s ++ x)%list /\
    (exists n, map kind_of x = firstn n [Lookup; ListRings]) /\
    (o = Nil -> map kind_of x = [Lookup; ListRings]).
Proof.
  destruct s as [d0 [u0 b0 i0] t0].
  unfold resourceIBMKmsKeyRingRead. explode.
  all: finished; cbn [trace]; rewrite <- ?app_assoc; cbn [app].
  all: try (exists []; rewrite app_nil_r; split; [reflexivity|];
            split; [pick_prefix | discriminate]).
  all: eexists; (split; [reflexivity|]); cbn [map kind_of];
    (split; [pick_prefix | first [discriminate | reflexivity]]).
Qed.

Lemma Create_requests (m : meta) (s s' : state) (o : outcome) :
  run (resourceIBMKmsKeyRingCreate m) s = (s', o) ->
  exists x, trace s' = (trace s ++ x)%list /\
    (exists n, map kind_of x = firstn n create_plan) /\
    (o = Nil -> map kind_of x = create_plan).
Proof.
  destruct s as [d0 [u0 b0 i0] t0].
  unfold resourceIBMKmsKeyRingCreate. explode.
  all: try (finished; cbn [trace]; rewrite <- ?app_assoc; cbn [app];
            first [ exists []; rewrite app_nil_r; split; [reflexivity|];
                    split; [pick_prefix | discriminate]
                  | eexists; (split; [reflexivity|]); cbn [map kind_of];
                    (split; [pick_prefix | discriminate]) ]).
  all: intros Hrun;
    match type of Hrun with
    | context [resourceIBMKmsKeyRingRead ?m' ?s1] =>
        destruct (resourceIBMKmsKeyRingRead m' s1) as [sR [v|oR]] eqn:ER; [destruct v|]
    end;
    apply pair_eq_inv in Hrun; destruct Hrun as [<- <-];
    apply run_exit, Read_requests in ER;
    destruct ER as (x & Ht & [n Hp] & Hn);
    destruct sR as [dR cR tR]; cbn [trace] in Ht; cbv beta iota; subst tR;
    rewrite <- ?app_assoc; cbn [app];
    eexists; (split; [reflexivity|]); cbn [map kind_of];
    (split; [exists (4 + n); rewrite Hp; reflexivity
            | intros Ho; rewrite (Hn Ho); reflexivity]).
Qed.

Lemma count_kind_map (k : kind) (x : list event) :
  count_kind k x = List.length (filter (fun a => kind_eqb a k) (map kind_of x)).
Proof.
  unfold count_kind. induction x as [|e x IH]; [reflexivity|].
  cbn [map filter]. destruct (kind_eqb (kind_of e) k); cbn [List.length]; now rewrite IH.
Qed.

Lemma firstn_create_plan (n : nat) :
  List.length (filter (fun a => kind_eqb a CreateRing) (firstn n create_plan)) <= 1 /\
  List.length (filter (fun a => kind_eqb a ListRings) (firstn n create_plan)) <= 2.
Proof.
  do 7 (destruct n as [|n]; [cbn; lia|]). cbn. lia.
Qed.

(** ** Create, by the answers of the service *)

(** The next request of a sequence of requests. *)
Ltac peel H :=
  apply list_eq_inv in H; cbn iota in H;
  first [contradiction
        | let E := fresh "E" in destruct H as [E H]; same_event E].

(** Enters the Read that Create ends with. *)
Ltac enter_read Hrun ER :=
  match type of Hrun with
  | context [resourceIBMKmsKeyRingRead ?m' ?s1] =>
      destruct (resourceIBMKmsKeyRingRead m' s1) as [sR [v|oR]] eqn:ER;
      [destruct v|]
  end;
  apply pair_eq_inv in Hrun; destruct Hrun as [<- <-].

(** Create dereferences the instance before it looks at the error. *)
Lemma Create_lookup_nil (m : meta) (s s' : state) (o : outcome)
      (i : string) (h1 : list event) (resp : string) (err : option goerror) :
  run (resourceIBMKmsKeyRingCreate m) s = (s', o) ->
  trace s' = (trace s ++ EvGetResourceInstance i :: h1)%list ->
  GetResourceInstance m (trace s) i = (None, resp, err) ->
  o = Panicked "invalid memory address or nil pointer dereference"
  /\ d s' = d s /\ h1 = [].
Proof.
  destruct s as [d0 [u0 b0 i0] t0].
  unfold resourceIBMKmsKeyRingCreate. explode.
  all: try (finished; first_request H; cbn [trace d] in *;
            first [congruence | repeat split; congruence]).
  all: intros Hrun; enter_read Hrun ER;
    destruct (Read_requests _ _ _ _ (run_exit _ _ _ _ ER)) as (x & Ht & _);
    rewrite Ht in H; first_request H; cbn [trace] in *; congruence.
Qed.

(** Once the listing has answered, Create stores the identifier made of
    the id found in the listing and the CRN of the instance, and goes on
    as Read. *)
Lemma Create_continues (m : meta) (s s' : state) (o : outcome)
      (i : string) (p : Request) (c c' : kp.Client) (k : string)
      (h1 : list event) (inst : ResourceInstance) (resp : string)
      (err : option goerror) (crn : string) (rings : list KeyRing) :
  run (resourceIBMKmsKeyRingCreate m) s = (s', o) ->
  trace s' = (trace s ++ [EvGetResourceInstance i; EvHttpPost p;
                          EvCreateKeyRing c k; EvGetKeyRings c'] ++ h1)%list ->
  GetResourceInstance m (trace s) i = (Some inst, resp, err) ->
  CRN inst = Some crn ->
  GetKeyRings m (trace s ++ [EvGetResourceInstance i; EvHttpPost p;
                             EvCreateKeyRing c k])%list c' = inl rings ->
  run (resourceIBMKmsKeyRingRead m)
      (mkState
         (mkResourceData
            (external_id (find_keyRing (key_ring_id (d s)) rings) crn)
            (instance_id (d s)) (key_ring_id (d s)) (endpoint_type (d s)))
         c'
         (trace s ++ [EvGetResourceInstance i; EvHttpPost p;
                      EvCreateKeyRing c k; EvGetKeyRings c'])%list)
  = (s', o).
Proof.
  destruct s as [d0 [u0 b0 i0] t0].
  match goal with |- _ -> _ -> _ -> _ -> _ -> ?r => remember r as cls eqn:Hcls end.
  unfold resourceIBMKmsKeyRingCreate. explode.
  all: try (finished; strip_trace H; do 4 peel H; cbn [trace d] in *;
            repeat match goal with
                   | Ha : context [((_ ++ _) ++ _)%list] |- _ =>
                       rewrite <- app_assoc in Ha; cbn [app] in Ha
                   end;
            congruence).
  all: intros Hrun; enter_read Hrun ER;
    destruct (Read_requests _ _ _ _ (run_exit _ _ _ _ ER)) as (x & Ht & _);
    rewrite Ht in H; strip_trace H; do 4 peel H; cbn [trace d app] in *;
    repeat match goal with
           | Ha : context [((_ ++ _) ++ _)%list] |- _ =>
               rewrite <- app_assoc in Ha; cbn [app] in Ha
           end;
    apply run_exit; rewrite <- ?app_assoc in ER; cbn [app] in ER.
  all: assert (r = inst) by congruence; assert (l = rings) by congruence; subst;
    assert (s1 = crn) by congruence; subst; exact ER.
Qed.

Lemma find_keyRing_absent (keyRingID : string) (rings : list KeyRing) :
  (forall v, In v rings -> ID v <> keyRingID) ->
  find_keyRing keyRingID rings = "".
Proof.
  induction rings as [|v rings IH]; intros H; [reflexivity|].
  cbn [find_keyRing].
  destruct (String.eqb (ID v) keyRingID) eqn:E.
  - apply String.eqb_eq in E. exfalso. apply (H v); [now left | exact E].
  - apply IH. intros w Hw. apply H. now right.
Qed.

Lemma find_keyRing_present (keyRingID : string) (rings : list KeyRing) :
  In keyRingID (map ID rings) ->
  find_keyRing keyRingID rings = keyRingID.
Proof.
  induction rings as [|v rings IH]; intros H; [destruct H|].
  cbn [find_keyRing].
  destruct (String.eqb (ID v) keyRingID) eqn:E.
  - now apply String.eqb_eq in E.
  - apply IH. destruct H as [H|H]; [|exact H].
    apply String.eqb_neq in E. congruence.
Qed.

(** ** Identifiers that do not decode *)

(** Delete indexes [id[1]] without the length test Read makes. *)
Lemma Delete_without_separator (m : meta) (s : state) :
  KeyManagementAPI m = None ->
  strings.Contains (Id (d s)) ":keyRing:" = false ->
  run (resourceIBMKmsKeyRingDelete m) s = (s, Panicked "index out of range").
Proof.
  intros Hk Hc. apply run_exit. unfold resourceIBMKmsKeyRingDelete.
  rewrite Hk. cbv beta iota zeta delta [bind check ret get_d].
  rewrite Split_no_sep by (congruence || assumption).
  now rewrite index_out_of_range by (unfold len; cbn [List.length]; lia).
Qed.

Lemma Read_without_separator (m : meta) (s : state) :
  KeyManagementAPI m = None ->
  strings.Contains (Id (d s)) ":keyRing:" = false ->
  run (resourceIBMKmsKeyRingRead m) s =
  (s, Failed (Errorf ("[ERROR] Incorrect ID " ++ Id (d s) ++
        ": Id should be a combination of keyRingID:keyRing:InstanceCRN"))).
Proof.
  intros Hk Hc. apply run_exit. unfold resourceIBMKmsKeyRingRead.
  rewrite Hk. cbv beta iota zeta delta [bind check ret get_d].
  rewrite Split_no_sep by (congruence || assumption).
  reflexivity.
Qed.

(** Neither Read nor Delete tests the number of CRN segments before
    [crnData[len(crnData)-3]]. *)
Lemma short_crn_panics (m : meta) (s : state) (k crn : string) (rest : list string) :
  KeyManagementAPI m = None ->
  strings.Split (Id (d s)) ":keyRing:" = k :: crn :: rest ->
  (len (strings.Split crn ":") < 3)%Z ->
  run (resourceIBMKmsKeyRingRead m) s = (s, Panicked "index out of range") /\
  run (resourceIBMKmsKeyRingDelete m) s = (s, Panicked "index out of range").
Proof.
  intros Hk Hid Hcrn.
  assert (Hlen : (2 <= len (strings.Split (Id (d s)) ":keyRing:"))%Z).
  { rewrite Hid. unfold len. cbn [List.length]. lia. }
  split; apply run_exit.
  - unfold resourceIBMKmsKeyRingRead.
    rewrite Hk. cbv beta iota zeta delta [bind check ret get_d].
    replace (len (strings.Split (Id (d s)) ":keyRing:") <? 2)%Z with false
      by (symmetry; apply Z.ltb_ge; lia).
    rewrite index_in_range by lia. rewrite Hid. change (nth (Z.to_nat 1) (k :: crn :: rest) "") with crn.
    now rewrite index_out_of_range by lia.
  - unfold resourceIBMKmsKeyRingDelete.
    rewrite Hk. cbv beta iota zeta delta [bind check ret get_d].
    rewrite index_in_range by lia. rewrite Hid. change (nth (Z.to_nat 1) (k :: crn :: rest) "") with crn.
    now rewrite index_out_of_range by lia.
Qed.

(** ** Delete and an absent ring *)

(** C2: a delete request that fails with an error that is no [*kp.Error]
    (here a transport failure) makes Delete panic at the type assertion
    of line 235 instead of returning the error; failures that carry
    status 404 or 409 end in [nil] and one with status 500 in an error. *)
Theorem C2_delete_error_not_surfaced :
  let s := demo.start demo.finance_id "123" "finance-keys" in
  let Delete err :=
    snd (run (resourceIBMKmsKeyRingDelete
                (demo.service demo.lookup demo.list_rings (Some err))) s) in
  Delete (PlainError "context deadline exceeded")
    = Panicked "interface conversion: error is not *kp.Error" /\
  Delete (KpError 404 "Not Found") = Nil /\
  Delete (KpError 409 "Conflict") = Nil /\
  Delete (KpError 500 "Internal Server Error")
    = Failed (Errorf " failed to Destroy key ring with error: Internal Server Error").
Proof. vm_compute. repeat split. Qed.

(** ** Create and the listing *)

(** When the listing holds no entry with the requested id, Create stores
    [":keyRing:" + crn], the identifier with an empty key ring part, and
    goes on as Read. *)
Lemma Create_without_entry (m : meta) (s s' : state) (o : outcome)
      (i : string) (p : Request) (c c' : kp.Client) (k : string)
      (h1 : list event) (inst : ResourceInstance) (resp : string)
      (err : option goerror) (crn : string) (rings : list KeyRing) :
  run (resourceIBMKmsKeyRingCreate m) s = (s', o) ->
  trace s' = (trace s ++ [EvGetResourceInstance i; EvHttpPost p;
                          EvCreateKeyRing c k; EvGetKeyRings c'] ++ h1)%list ->
  GetResourceInstance m (trace s) i = (Some inst, resp, err) ->
  CRN inst = Some crn ->
  GetKeyRings m (trace s ++ [EvGetResourceInstance i; EvHttpPost p;
                             EvCreateKeyRing c k])%list c' = inl rings ->
  (forall v, In v rings -> ID v <> key_ring_id (d s)) ->
  run (resourceIBMKmsKeyRingRead m)
      (mkState
         (mkResourceData (":keyRing:" ++ crn)
            (instance_id (d s)) (key_ring_id (d s)) (endpoint_type (d s)))
         c'
         (trace s ++ [EvGetResourceInstance i; EvHttpPost p;
                      EvCreateKeyRing c k; EvGetKeyRings c'])%list)
  = (s', o).
Proof.
  intros Hrun Ht Hi Hcrn Hl Habs.
  pose proof (Create_continues m s s' o i p c c' k h1 inst resp err crn rings
                Hrun Ht Hi Hcrn Hl) as H.
  rewrite (find_keyRing_absent _ _ Habs) in H. exact H.
Qed.

(** C3: with a create request that succeeds and a listing that shows
    only ["default"], the loop of lines 138-143 finds nothing and Create
    returns no error: it returns [nil], the stored identifier is
    [":keyRing:" + crn] with an empty key ring part, and the
    [key_ring_id] it reports is [""], which the validator of the resource
    rejects. *)
Theorem C3_create_unverified_entry :
  let m := demo.service demo.lookup demo.list_stale None in
  let s := demo.start "" "123" "finance-keys" in
  let r := run (resourceIBMKmsKeyRingCreate m) s in
  count_kind CreateRing (requests (resourceIBMKmsKeyRingCreate m) s) = 1 /\
  ~ In "finance-keys" (map ID [mkKeyRing "default" "system"]) /\
  snd r = Nil /\
  Id (d (fst r)) = ":keyRing:crn:v1:bluemix:public:kms:us-south:a/abc:123::" /\
  key_ring_id (d (fst r)) = "" /\
  ResourceIBMKeyRingValidator (key_ring_id (d (fst r))) = false.
Proof.
  vm_compute. repeat split. intros [H|[]]. discriminate H.
Qed.

(** ** Read and the instance lookup *)

(** Read clears the stored id and returns [nil] only after a list
    request that failed with status 404 or 409. *)
Lemma Read_absent_only (m : meta) (s s' : state) (o : outcome) :
  run (resourceIBMKmsKeyRingRead m) s = (s', o) ->
  o = Nil -> Id (d s') = "" ->
  exists h0 c code text,
    trace s' = (trace s ++ h0 ++ [EvGetKeyRings c])%list /\
    GetKeyRings m (trace s ++ h0)%list c = inr (KpError code text) /\
    (code = 404 \/ code = 409)%Z.
Proof.
  destruct s as [d0 [u0 b0 i0] t0].
  match goal with |- _ -> _ -> _ -> ?r => remember r as cls eqn:Hcls end.
  unfold resourceIBMKmsKeyRingRead. explode.
  all: finished; cbn [d trace Id] in *.
  all: try match goal with Hn : _ = Nil |- _ => discriminate Hn end.
  all: try (eexists [_], _, _, _; split;
            [ cbn [app]; rewrite <- app_assoc; reflexivity
            | split;
              [ eassumption
              | first [ left; apply Z.eqb_eq; assumption
                      | right; apply Z.eqb_eq; assumption ] ] ]).
  all: match goal with
       | Hid : Id _ = "", Hb : (len (strings.Split (Id _) _) <? 2)%Z = false |- _ =>
           rewrite Hid in Hb; vm_compute in Hb; discriminate Hb
       end.
Qed.

(** C4, as corrected: when the instance lookup of Read fails (an error,
    or no instance returned), Read returns the error "Error retrieving
    resource instance", issues no further request and leaves the stored
    id and the fields as they were; and Read reports the ring absent,
    clearing the id and returning [nil], only when its list request has
    failed with status 404 or 409. *)
Theorem C4_read_lookup_failure (m : meta) (s s' : state) (o : outcome) :
  run (resourceIBMKmsKeyRingRead m) s = (s', o) ->
  (forall (i : string) (h1 : list event) (data : option ResourceInstance)
          (resp : string) (err : option goerror),
     trace s' = (trace s ++ EvGetResourceInstance i :: h1)%list ->
     GetResourceInstance m (trace s) i = (data, resp, err) ->
     err <> None \/ data = None ->
     o = Failed (Errorf ("[ERROR] Error retrieving resource instance: " ++
                         fmt_s err ++ " with resp code: " ++ resp))
     /\ d s' = d s /\ h1 = []) /\
  (o = Nil -> Id (d s') = "" ->
   exists h0 c code text,
     trace s' = (trace s ++ h0 ++ [EvGetKeyRings c])%list /\
     GetKeyRings m (trace s ++ h0)%list c = inr (KpError code text) /\
     (code = 404 \/ code = 409)%Z).
Proof.
  intros Hrun. split.
  - intros i h1 data resp err. exact (Read_lookup_failure m s s' o i h1 data resp err Hrun).
  - exact (Read_absent_only m s s' o Hrun).
Qed.

Lemma C4_read_lookup_failure_witness :
  let m := demo.service demo.lookup_gone demo.list_rings None in
  let s := demo.start demo.finance_id "123" "finance-keys" in
  snd (run (resourceIBMKmsKeyRingRead m) s) =
    Failed (Errorf ("[ERROR] Error retrieving resource instance: " ++
                    "Instance not found" ++ " with resp code: " ++ "404"))
  /\ d (fst (run (resourceIBMKmsKeyRingRead m) s)) = d s /\ [] = @nil event.
Proof.
  intros m s.
  apply (proj1 (C4_read_lookup_failure m s
                  (fst (run (resourceIBMKmsKeyRingRead m) s))
                  (snd (run (resourceIBMKmsKeyRingRead m) s))
                  (surjective_pairing _))
           "123" [] None "404" (Some (PlainError "Instance not found"))).
  - vm_compute. reflexivity.
  - reflexivity.
  - left. discriminate.
Defined.

(** C4 as stated fails: the instance is gone, Read returns an error and
    keeps the stored id. *)
Lemma C4_counterexample :
  let m := demo.service demo.lookup_gone demo.list_rings None in
  let s := demo.start demo.finance_id "123" "finance-keys" in
  let r := run (resourceIBMKmsKeyRingRead m) s in
  snd r <> Nil /\ Id (d (fst r)) = demo.finance_id /\ Id (d (fst r)) <> "".
Proof. vm_compute. repeat split; discriminate. Qed.

(** ** Identifiers that do not decode: the claims *)

(** C5: on the stored id ["ab:keyRing:abc"], whose CRN part has one
    segment, Read and Delete both panic with an index out of range at
    [crnData[len(crnData)-3]] before any request is made; no error is
    returned. *)
Theorem C5_short_crn_panics :
  let s := demo.start "ab:keyRing:abc" "123" "ab" in
  (len (strings.Split "abc" ":") < 3)%Z /\
  run (resourceIBMKmsKeyRingRead demo.world) s = (s, Panicked "index out of range") /\
  run (resourceIBMKmsKeyRingDelete demo.world) s = (s, Panicked "index out of range").
Proof.
  intros s. split; [vm_compute; reflexivity|].
  apply (short_crn_panics demo.world s "ab" "abc" []); vm_compute; reflexivity.
Qed.

(** C6: on the stored id ["bad-id-no-separator"] Delete panics with an
    index out of range at [id[1]] before any request is made, where Read
    returns the "Incorrect ID" error. *)
Theorem C6_delete_without_separator :
  let s := demo.start "bad-id-no-separator" "123" "finance-keys" in
  strings.Contains "bad-id-no-separator" ":keyRing:" = false /\
  run (resourceIBMKmsKeyRingDelete demo.world) s = (s, Panicked "index out of range") /\
  run (resourceIBMKmsKeyRingRead demo.world) s =
    (s, Failed (Errorf ("[ERROR] Incorrect ID bad-id-no-separator" ++
          ": Id should be a combination of keyRingID:keyRing:InstanceCRN"))).
Proof.
  intros s. split; [vm_compute; reflexivity|]. split.
  - apply Delete_without_separator; vm_compute; reflexivity.
  - apply (Read_without_separator demo.world s); vm_compute; reflexivity.
Qed.

(** ** The instance lookup in the three operations *)

(** C9: when the lookup returns an error and no instance, Create panics
    with a nil pointer dereference at line 95, before the test of line
    96; Read and Delete return the error. *)
Theorem C9_create_lookup_nil_panics :
  let m := demo.service demo.lookup_gone demo.list_rings None in
  snd (run (resourceIBMKmsKeyRingCreate m) (demo.start "" "123" "finance-keys"))
    = Panicked "invalid memory address or nil pointer dereference" /\
  snd (run (resourceIBMKmsKeyRingRead m)
           (demo.start demo.finance_id "123" "finance-keys"))
    = Failed (Errorf "[ERROR] Error retrieving resource instance: Instance not found with resp code: 404") /\
  snd (run (resourceIBMKmsKeyRingDelete m)
           (demo.start demo.finance_id "123" "finance-keys"))
    = Failed (Errorf "[ERROR] Error retrieving resource instance: Instance not found with resp code: 404").
Proof. vm_compute. repeat split. Qed.

(** ** The type assertion on a failed Key Protect call *)

(** C10: in Read after a failed [GetKeyRings] and in Delete after a failed
    [DeleteKeyRing], an error that is no [*kp.Error] makes the operation
    panic at the type assertion; it is never returned. *)
Theorem C10_unchecked_type_assertion (m : meta) (s s' : state) (o : outcome)
      (h0 : list event) (c : kp.Client) (text : string) :
  (run (resourceIBMKmsKeyRingRead m) s = (s', o) ->
   trace s' = (trace s ++ h0 ++ [EvGetKeyRings c])%list ->
   GetKeyRings m (trace s ++ h0)%list c = inr (PlainError text) ->
   o = Panicked "interface conversion: error is not *kp.Error") /\
  (forall k,
   run (resourceIBMKmsKeyRingDelete m) s = (s', o) ->
   trace s' = (trace s ++ h0 ++ [EvDeleteKeyRing c k])%list ->
   DeleteKeyRing m (trace s ++ h0)%list c k = Some (PlainError text) ->
   o = Panicked "interface conversion: error is not *kp.Error").
Proof.
  split.
  - intros Hrun Ht Hans.
    pose proof (Read_classifies m s s' o h0 c Hrun Ht) as H.
    rewrite Hans in H. apply H.
  - intros k Hrun Ht Hans.
    pose proof (Delete_classifies m s s' o h0 c k Hrun Ht) as H.
    now rewrite Hans in H.
Qed.

Lemma C10_unchecked_type_assertion_witness :
  let s := demo.start demo.finance_id "123" "finance-keys" in
  let e := PlainError "context deadline exceeded" in
  snd (run (resourceIBMKmsKeyRingRead
              (demo.service demo.lookup (demo.list_fails e) None)) s)
    = Panicked "interface conversion: error is not *kp.Error" /\
  snd (run (resourceIBMKmsKeyRingDelete
              (demo.service demo.lookup demo.list_rings (Some e))) s)
    = Panicked "interface conversion: error is not *kp.Error".
Proof.
  intros s e. split.
  - eapply (proj1 (C10_unchecked_type_assertion
                     (demo.service demo.lookup (demo.list_fails e) None) s _ _
                     [EvGetResourceInstance "123"] _ "context deadline exceeded")).
    + apply surjective_pairing.
    + cbv. reflexivity.
    + reflexivity.
  - eapply (proj2 (C10_unchecked_type_assertion
                     (demo.service demo.lookup demo.list_rings (Some e)) s _ _
                     [EvGetResourceInstance "123"] _ "context deadline exceeded")).
    + apply surjective_pairing.
    + cbv. reflexivity.
    + reflexivity.
Defined.

(** ** The finance-keys scenario *)

(** C8, as corrected: with [key_ring_id] ["finance-keys"] and the instance
    CRN [crn:v1:bluemix:public:kms:us-south:a/abc:123::], Create stores
    the identifier
    ["finance-keys:keyRing:crn:v1:bluemix:public:kms:us-south:a/abc:123::"]
    and goes on as Read; and every Read of that identifier whose listing
    succeeds reports [instance_id] ["123"], the third segment from the
    end of the CRN, and [key_ring_id] ["finance-keys"]. *)
Theorem C8_finance_keys_scenario (m : meta) :
  external_id "finance-keys" demo.crn = demo.finance_id /\
  (forall (s s' : state) (o : outcome) (i : string) (p : Request)
          (c c' : kp.Client) (h1 : list event) (inst : ResourceInstance)
          (resp : string) (err : option goerror) (rings : list KeyRing),
     key_ring_id (d s) = "finance-keys" ->
     run (resourceIBMKmsKeyRingCreate m) s = (s', o) ->
     trace s' = (trace s ++ [EvGetResourceInstance i; EvHttpPost p;
                             EvCreateKeyRing c "finance-keys";
                             EvGetKeyRings c'] ++ h1)%list ->
     GetResourceInstance m (trace s) i = (Some inst, resp, err) ->
     CRN inst = Some demo.crn ->
     GetKeyRings m (trace s ++ [EvGetResourceInstance i; EvHttpPost p;
                                EvCreateKeyRing c "finance-keys"])%list c'
       = inl rings ->
     In "finance-keys" (map ID rings) ->
     run (resourceIBMKmsKeyRingRead m)
         (mkState
            (mkResourceData demo.finance_id (instance_id (d s))
               "finance-keys" (endpoint_type (d s)))
            c'
            (trace s ++ [EvGetResourceInstance i; EvHttpPost p;
                         EvCreateKeyRing c "finance-keys";
                         EvGetKeyRings c'])%list)
     = (s', o)) /\
  (forall (s s' : state) (o : outcome) (h0 : list event) (c : kp.Client)
          (listing : list KeyRing),
     Id (d s) = demo.finance_id ->
     run (resourceIBMKmsKeyRingRead m) s = (s', o) ->
     trace s' = (trace s ++ h0 ++ [EvGetKeyRings c])%list ->
     GetKeyRings m (trace s ++ h0)%list c = inl listing ->
     o = Nil /\ Id (d s') = demo.finance_id /\
     instance_id (d s') = "123" /\ key_ring_id (d s') = "finance-keys").
Proof.
  split; [reflexivity|]. split.
  - intros s s' o i p c c' h1 inst resp err rings Hk Hrun Ht Hi Hcrn Hl Hin.
    pose proof (Create_continues m s s' o i p c c' "finance-keys" h1 inst resp
                  err demo.crn rings Hrun Ht Hi Hcrn Hl) as H.
    rewrite Hk in H. rewrite (find_keyRing_present _ _ Hin) in H. exact H.
  - intros s s' o h0 c listing Hid Hrun Ht Hl.
    pose proof (Read_classifies m s s' o h0 c Hrun Ht) as H.
    rewrite Hl, Hid in H. destruct H as (Ho & HId & Hinst & Hkey & _).
    repeat split; [exact Ho | exact HId | rewrite Hinst | rewrite Hkey];
      vm_compute; reflexivity.
Qed.

Lemma C8_finance_keys_scenario_witness :
  let s := demo.start "" demo.crn "finance-keys" in
  let r := run (resourceIBMKmsKeyRingRead demo.world)
               (demo.start demo.finance_id "" "") in
  (exists s1, Id (d s1) = demo.finance_id /\
     run (resourceIBMKmsKeyRingRead demo.world) s1
     = run (resourceIBMKmsKeyRingCreate demo.world) s) /\
  snd r = Nil /\ Id (d (fst r)) = demo.finance_id /\
  instance_id (d (fst r)) = "123" /\ key_ring_id (d (fst r)) = "finance-keys".
Proof.
  intros s r.
  destruct (C8_finance_keys_scenario demo.world) as (_ & HC & HR).
  split.
  - eexists. split.
    2: { rewrite (surjective_pairing (run (resourceIBMKmsKeyRingCreate demo.world) s)) at 1.
         eapply (HC s).
         - reflexivity.
         - apply surjective_pairing.
         - cbv. reflexivity.
         - cbv. reflexivity.
         - reflexivity.
         - cbv. reflexivity.
         - cbv. right. left. reflexivity. }
    reflexivity.
  - eapply (HR (demo.start demo.finance_id "" "") (fst r) (snd r)
               [EvGetResourceInstance "123"]).
    + reflexivity.
    + apply surjective_pairing.
    + cbv. reflexivity.
    + cbv. reflexivity.
Defined.

(** C8 as stated fails in the instance id: the third segment from the
    end of the CRN is ["123"]; ["a/abc"] is the fourth, and ["abc"] is
    no segment at all. *)
Lemma C8_counterexample :
  let r := run (resourceIBMKmsKeyRingCreate demo.world)
               (demo.start "" demo.crn "finance-keys") in
  let r2 := run (resourceIBMKmsKeyRingRead demo.world) (fst r) in
  strings.Split demo.crn ":"
    = ["crn"; "v1"; "bluemix"; "public"; "kms"; "us-south"; "a/abc"; "123"; ""; ""] /\
  Id (d (fst r)) = demo.finance_id /\
  snd r2 = Nil /\ key_ring_id (d (fst r2)) = "finance-keys" /\
  instance_id (d (fst r2)) = "123" /\ instance_id (d (fst r2)) <> "abc".
Proof. vm_compute. repeat split. discriminate. Qed.

(** ** Further properties of Read *)

(** Turns the index tests of a branch into inequalities. *)
Ltac tests_to_props :=
  repeat match goal with
         | H : _ = true |- _ =>
             rewrite ?andb_true_iff, ?Z.leb_le, ?Z.ltb_lt in H
         | H : _ = false |- _ =>
             rewrite ?andb_false_iff, ?Z.leb_gt, ?Z.ltb_ge in H
         end.

Lemma Panicked_inv (a b : string) : Panicked a = Panicked b -> a = b.
Proof. intros H. now inversion H. Qed.

(** The run has ended in a panic. *)
Ltac panicked :=
  let Hrun := fresh "Hrun" in
  let Ho := fresh "Ho" in
  intros Hrun; apply pair_eq_inv in Hrun; destruct Hrun as [<- Ho];
  first [discriminate Ho | apply Panicked_inv in Ho; subst].

(** X1: Read panics in two cases only: the CRN part of the stored id has
    fewer than three segments (nothing is requested then), or the list
    request fails with an error that is no [*kp.Error]. *)
Theorem X1_read_panics_only (m : meta) (s s' : state) (why : string) :
  run (resourceIBMKmsKeyRingRead m) s = (s', Panicked why) ->
  (why = "index out of range" /\ s' = s /\
   (len (strings.Split (nth 1 (strings.Split (Id (d s)) ":keyRing:") "") ":") < 3)%Z)
  \/
  (why = "interface conversion: error is not *kp.Error" /\ d s' = d s /\
   exists h0 c text,
     trace s' = (trace s ++ h0 ++ [EvGetKeyRings c])%list /\
     GetKeyRings m (trace s ++ h0)%list c = inr (PlainError text)).
Proof.
  destruct s as [d0 [u0 b0 i0] t0].
  match goal with |- _ -> ?r => remember r as cls eqn:Hcls end.
  unfold resourceIBMKmsKeyRingRead. explode.
  all: panicked.
  all: cbn [d trace Id].
  all: try (left; repeat split; try reflexivity;
            tests_to_props; unfold len in *;
            change (Z.to_nat 1) with 1 in *; lia).
  all: try (right; repeat split; try reflexivity;
            eexists [_], _, _; cbn [app]; split;
            [rewrite <- app_assoc; reflexivity | eassumption]).
  all: range_clash.
Qed.

Lemma X1_read_panics_only_witness :
  let s := demo.start "ab:keyRing:abc" "123" "ab" in
  ("index out of range" = "index out of range" /\ s = s /\
   (len (strings.Split (nth 1 (strings.Split (Id (d s)) ":keyRing:") "") ":") < 3)%Z)
  \/
  ("index out of range" = "interface conversion: error is not *kp.Error" /\
   d s = d s /\
   exists h0 c text,
     trace s = (trace s ++ h0 ++ [EvGetKeyRings c])%list /\
     GetKeyRings demo.world (trace s ++ h0)%list c = inr (PlainError text)).
Proof.
  intros s. apply (X1_read_panics_only demo.world s s "index out of range").
  vm_compute. reflexivity.
Defined.

(** X2: when the list request of Read fails with status 404 or 409, Read
    returns [nil] and clears the stored id; the three fields keep their
    values. *)
Theorem X2_read_absent (m : meta) (s s' : state) (o : outcome)
      (h0 : list event) (c : kp.Client) (code : Z) (text : string) :
  run (resourceIBMKmsKeyRingRead m) s = (s', o) ->
  trace s' = (trace s ++ h0 ++ [EvGetKeyRings c])%list ->
  GetKeyRings m (trace s ++ h0)%list c = inr (KpError code text) ->
  (code = 404 \/ code = 409)%Z ->
  o = Nil /\
  d s' = mkResourceData "" (instance_id (d s)) (key_ring_id (d s))
                        (endpoint_type (d s)).
Proof.
  destruct s as [d0 [u0 b0 i0] t0].
  unfold resourceIBMKmsKeyRingRead. explode.
  all: finished; last_request H.
  all: cbn [trace app d] in *.
  all: match goal with
       | Ha : GetKeyRings _ _ _ = _, Hb : GetKeyRings _ _ _ = _ |- _ =>
           rewrite Ha in Hb; try discriminate Hb
       end.
  all: try (split; reflexivity).
  all: match goal with Hb : inr _ = inr _ |- _ => inversion Hb; subst end.
  all: tests_to_props; lia.
Qed.

Lemma X2_read_absent_witness :
  let m := demo.service demo.lookup (demo.list_fails (KpError 404 "Not Found")) None in
  let s := demo.start demo.finance_id "123" "finance-keys" in
  snd (run (resourceIBMKmsKeyRingRead m) s) = Nil /\
  d (fst (run (resourceIBMKmsKeyRingRead m) s))
  = mkResourceData "" (instance_id (d s)) (key_ring_id (d s)) (endpoint_type (d s)).
Proof.
  intros m s.
  apply (X2_read_absent m s _ _ [EvGetResourceInstance "123"] cases.client1
           404%Z "Not Found").
  - apply surjective_pairing.
  - vm_compute. reflexivity.
  - reflexivity.
  - left. reflexivity.
Defined.

(** X3: when the list request of Read succeeds, Read returns [nil] and
    keeps the stored id whatever the listing holds, also when the ring is
    not in it or the listing is empty; it stores as [key_ring_id] the
    part of the id before [":keyRing:"] and as [instance_id] the
    segment at [len-3] of the part behind it. *)
Theorem X3_read_present_any_listing (m : meta) (s s' : state) (o : outcome)
      (h0 : list event) (c : kp.Client) (listing : list KeyRing) :
  run (resourceIBMKmsKeyRingRead m) s = (s', o) ->
  trace s' = (trace s ++ h0 ++ [EvGetKeyRings c])%list ->
  GetKeyRings m (trace s ++ h0)%list c = inl listing ->
  o = Nil /\ Id (d s') = Id (d s) /\
  key_ring_id (d s') = nth 0 (strings.Split (Id (d s)) ":keyRing:") "" /\
  instance_id (d s') =
    instance_segment (nth 1 (strings.Split (Id (d s)) ":keyRing:") "") /\
  h0 = [EvGetResourceInstance (instance_id (d s'))].
Proof.
  destruct s as [d0 [u0 b0 i0] t0].
  unfold resourceIBMKmsKeyRingRead. explode.
  all: finished; last_request H.
  all: cbn [trace app d Id instance_id key_ring_id] in *.
  all: match goal with
       | Ha : GetKeyRings _ _ _ = _, Hb : GetKeyRings _ _ _ = _ |- _ =>
           rewrite Ha in Hb; try discriminate Hb
       end.
  all: try (repeat split; reflexivity).
  all: range_clash.
Qed.

Lemma X3_read_present_any_listing_witness :
  let m := demo.service demo.lookup cases.list_empty None in
  let s := demo.start demo.finance_id "" "" in
  let r := run (resourceIBMKmsKeyRingRead m) s in
  snd r = Nil /\ Id (d (fst r)) = Id (d s) /\
  key_ring_id (d (fst r)) = nth 0 (strings.Split (Id (d s)) ":keyRing:") "" /\
  instance_id (d (fst r)) =
    instance_segment (nth 1 (strings.Split (Id (d s)) ":keyRing:") "") /\
  [EvGetResourceInstance "123"] = [EvGetResourceInstance (instance_id (d (fst r)))].
Proof.
  intros m s r.
  apply (X3_read_present_any_listing m s (fst r) (snd r)
           [EvGetResourceInstance "123"] cases.client1 []).
  - apply surjective_pairing.
  - vm_compute. reflexivity.
  - reflexivity.
Defined.



(** X5: Read changes the resource data only when it returns [nil]: a Read
    that returns an error or panics leaves id and fields as they were;
    and the id a Read leaves is the id it found or the empty id. *)
Theorem X5_read_data (m : meta) (s s' : state) (o : outcome) :
  run (resourceIBMKmsKeyRingRead m) s = (s', o) ->
  (o <> Nil -> d s' = d s) /\
  (Id (d s') = Id (d s) \/ Id (d s') = "") /\
  kp.BaseURL (kpAPI s') = kp.BaseURL (kpAPI s).
Proof.
  destruct s as [d0 [u0 b0 i0] t0].
  unfold resourceIBMKmsKeyRingRead. explode.
  all: finished; cbn [d kpAPI Id kp.BaseURL].
  all: try (split;
       [ intros Hn; first [reflexivity | exfalso; apply Hn; reflexivity]
       | split; [first [left; reflexivity | right; reflexivity] | reflexivity] ]).
  all: range_clash.
Qed.

Lemma X5_read_data_witness :
  let m := demo.service demo.lookup_gone demo.list_rings None in
  let s := demo.start demo.finance_id "123" "finance-keys" in
  let r := run (resourceIBMKmsKeyRingRead m) s in
  (snd r <> Nil -> d (fst r) = d s) /\
  (Id (d (fst r)) = Id (d s) \/ Id (d (fst r)) = "") /\
  kp.BaseURL (kpAPI (fst r)) = kp.BaseURL (kpAPI s).
Proof.
  intros m s r. apply (X5_read_data m s (fst r) (snd r)).
  apply surjective_pairing.
Defined.

(** X6: the list request of Read goes to the instance Read has just
    looked up, at the URL [KmsEndpointURL] gave for the extensions of
    that instance; the base URL of the client is not touched, and the
    shared client stays configured that way after the run. *)
Theorem X6_read_target (m : meta) (s s' : state) (o : outcome)
      (i : string) (c : kp.Client) :
  run (resourceIBMKmsKeyRingRead m) s = (s', o) ->
  trace s' = (trace s ++ [EvGetResourceInstance i; EvGetKeyRings c])%list ->
  kp.InstanceID c = i /\ kp.BaseURL c = kp.BaseURL (kpAPI s) /\ kpAPI s' = c /\
  exists inst resp,
    GetResourceInstance m (trace s) i = (Some inst, resp, None) /\
    KmsEndpointURL m (kpAPI s) (endpoint_type (d s)) (InstanceExtensions inst)
      = inl (kp.URL c).
Proof.
  destruct s as [d0 [u0 b0 i0] t0].
  match goal with |- _ -> _ -> ?r => remember r as cls eqn:Hcls end.
  unfold resourceIBMKmsKeyRingRead. explode.
  all: finished; first_request H.
  all: try (apply list_eq_inv in H; cbn iota in H; contradiction).
  all: peel H.
  all: cbn [d kpAPI trace kp.InstanceID kp.BaseURL kp.URL].
  all: repeat split; try reflexivity; eexists _, _; split; eassumption.
Qed.

Lemma X6_read_target_witness :
  let s := demo.start demo.finance_id "" "" in
  let r := run (resourceIBMKmsKeyRingRead demo.world) s in
  let c := cases.client1 in
  kp.InstanceID c = "123" /\ kp.BaseURL c = kp.BaseURL (kpAPI s) /\
  kpAPI (fst r) = c /\
  exists inst resp,
    GetResourceInstance demo.world (trace s) "123" = (Some inst, resp, None) /\
    KmsEndpointURL demo.world (kpAPI s) (endpoint_type (d s)) (InstanceExtensions inst)
      = inl (kp.URL c).
Proof.
  intros s r c. apply (X6_read_target demo.world s (fst r) (snd r) "123" c).
  - apply surjective_pairing.
  - vm_compute. reflexivity.
Defined.

(** ** Further properties of Delete *)

(** X7: Delete panics in three cases only: the stored id has no
    [":keyRing:"], or its CRN part has fewer than three segments (nothing
    is requested in either case), or the delete request fails with an
    error that is no [*kp.Error]. *)
Theorem X7_delete_panics_only (m : meta) (s s' : state) (why : string) :
  run (resourceIBMKmsKeyRingDelete m) s = (s', Panicked why) ->
  (why = "index out of range" /\ s' = s /\
   (len (strings.Split (Id (d s)) ":keyRing:") < 2)%Z)
  \/
  (why = "index out of range" /\ s' = s /\
   (len (strings.Split (nth 1 (strings.Split (Id (d s)) ":keyRing:") "") ":") < 3)%Z)
  \/
  (why = "interface conversion: error is not *kp.Error" /\ d s' = d s /\
   exists h0 c k text,
     trace s' = (trace s ++ h0 ++ [EvDeleteKeyRing c k])%list /\
     DeleteKeyRing m (trace s ++ h0)%list c k = Some (PlainError text)).
Proof.
  destruct s as [d0 [u0 b0 i0] t0].
  match goal with |- _ -> ?r => remember r as cls eqn:Hcls end.
  unfold resourceIBMKmsKeyRingDelete. explode.
  all: panicked.
  all: cbn [d trace Id].
  all: try (left; repeat split; try reflexivity;
            tests_to_props; unfold len in *; lia).
  all: try (right; left; repeat split; try reflexivity;
            tests_to_props; unfold len in *;
            change (Z.to_nat 1) with 1 in *; lia).
  all: try (right; right; repeat split; try reflexivity;
            eexists [_], _, _, _; cbn [app]; split;
            [rewrite <- app_assoc; reflexivity | eassumption]).
  all: range_clash.
Qed.

Lemma X7_delete_panics_only_witness :
  let s := demo.start "bad-id-no-separator" "123" "finance-keys" in
  ("index out of range" = "index out of range" /\ s = s /\
   (len (strings.Split (Id (d s)) ":keyRing:") < 2)%Z)
  \/
  ("index out of range" = "index out of range" /\ s = s /\
   (len (strings.Split (nth 1 (strings.Split (Id (d s)) ":keyRing:") "") ":") < 3)%Z)
  \/
  ("index out of range" = "interface conversion: error is not *kp.Error" /\
   d s = d s /\
   exists h0 c k text,
     trace s = (trace s ++ h0 ++ [EvDeleteKeyRing c k])%list /\
     DeleteKeyRing demo.world (trace s ++ h0)%list c k = Some (PlainError text)).
Proof.
  intros s. apply (X7_delete_panics_only demo.world s s "index out of range").
  vm_compute. reflexivity.
Defined.

(** X8: Delete never writes the resource data, in no run: it neither
    clears the id nor sets a field; it asks for the instance and then for
    the deletion, stopping at the first failure, and a Delete that returns
    [nil] has issued both requests. *)
Theorem X8_delete_data_and_requests (m : meta) (s s' : state) (o : outcome) :
  run (resourceIBMKmsKeyRingDelete m) s = (s', o) ->
  d s' = d s /\ kp.BaseURL (kpAPI s') = kp.BaseURL (kpAPI s) /\
  exists x, trace s' = (trace s ++ x)%list /\
    (exists n, map kind_of x = firstn n delete_plan) /\
    (o = Nil -> map kind_of x = delete_plan).
Proof.
  destruct s as [d0 [u0 b0 i0] t0].
  unfold resourceIBMKmsKeyRingDelete. explode.
  all: finished; cbn [trace d kpAPI kp.BaseURL]; rewrite <- ?app_assoc; cbn [app].
  all: split; [reflexivity|]; split; [reflexivity|].
  all: try (exists []; rewrite app_nil_r; split; [reflexivity|];
            split; [pick_prefix | discriminate]).
  all: eexists; (split; [reflexivity|]); cbn [map kind_of];
    (split; [pick_prefix | first [discriminate | reflexivity]]).
Qed.

Lemma X8_delete_data_and_requests_witness :
  let s := demo.start demo.finance_id "123" "finance-keys" in
  let r := run (resourceIBMKmsKeyRingDelete demo.world) s in
  d (fst r) = d s /\ kp.BaseURL (kpAPI (fst r)) = kp.BaseURL (kpAPI s) /\
  exists x, trace (fst r) = (trace s ++ x)%list /\
    (exists n, map kind_of x = firstn n delete_plan) /\
    (snd r = Nil -> map kind_of x = delete_plan).
Proof.
  intros s r. apply (X8_delete_data_and_requests demo.world s (fst r) (snd r)).
  apply surjective_pairing.
Defined.

(** What the two requests of a Delete are made of. *)
Lemma Delete_requests_made_of (m : meta) (s s' : state) (o : outcome)
      (i : string) (c : kp.Client) (k : string) :
  run (resourceIBMKmsKeyRingDelete m) s = (s', o) ->
  trace s' = (trace s ++ [EvGetResourceInstance i; EvDeleteKeyRing c k])%list ->
  k = nth 0 (strings.Split (Id (d s)) ":keyRing:") "" /\
  i = instance_segment (nth 1 (strings.Split (Id (d s)) ":keyRing:") "") /\
  kp.InstanceID c = i /\ kp.BaseURL c = kp.BaseURL (kpAPI s) /\
  exists inst resp,
    GetResourceInstance m (trace s) i = (Some inst, resp, None) /\
    KmsEndpointURL m (kpAPI s) (endpoint_type (d s)) (InstanceExtensions inst)
      = inl (kp.URL c).
Proof.
  destruct s as [d0 [u0 b0 i0] t0].
  match goal with |- _ -> _ -> ?r => remember r as cls eqn:Hcls end.
  unfold resourceIBMKmsKeyRingDelete. explode.
  all: finished; first_request H.
  all: try (apply list_eq_inv in H; cbn iota in H; contradiction).
  all: peel H.
  all: cbn [d kpAPI trace kp.InstanceID kp.BaseURL kp.URL].
  all: repeat split; try reflexivity; eexists _, _; split; eassumption.
Qed.

(** X9: the delete request of Delete names the part of the stored id
    before [":keyRing:"] and goes to the instance named by the segment at
    [len-3] of the part behind it, at the URL [KmsEndpointURL] gave for
    that instance. *)
Theorem X9_delete_target (m : meta) (s s' : state) (o : outcome)
      (i : string) (c : kp.Client) (k : string) :
  run (resourceIBMKmsKeyRingDelete m) s = (s', o) ->
  trace s' = (trace s ++ [EvGetResourceInstance i; EvDeleteKeyRing c k])%list ->
  k = nth 0 (strings.Split (Id (d s)) ":keyRing:") "" /\
  i = instance_segment (nth 1 (strings.Split (Id (d s)) ":keyRing:") "") /\
  kp.InstanceID c = i /\ kp.BaseURL c = kp.BaseURL (kpAPI s) /\
  exists inst resp,
    GetResourceInstance m (trace s) i = (Some inst, resp, None) /\
    KmsEndpointURL m (kpAPI s) (endpoint_type (d s)) (InstanceExtensions inst)
      = inl (kp.URL c).
Proof. exact (Delete_requests_made_of m s s' o i c k). Qed.

Lemma X9_delete_target_witness :
  let s := demo.start demo.finance_id "" "" in
  let c := cases.client1 in
  "finance-keys" = nth 0 (strings.Split (Id (d s)) ":keyRing:") "" /\
  "123" = instance_segment (nth 1 (strings.Split (Id (d s)) ":keyRing:") "") /\
  kp.InstanceID c = "123" /\ kp.BaseURL c = kp.BaseURL (kpAPI s) /\
  exists inst resp,
    GetResourceInstance demo.world (trace s) "123" = (Some inst, resp, None) /\
    KmsEndpointURL demo.world (kpAPI s) (endpoint_type (d s)) (InstanceExtensions inst)
      = inl (kp.URL c).
Proof.
  intros s c.
  apply (X9_delete_target demo.world s
           (fst (run (resourceIBMKmsKeyRingDelete demo.world) s))
           (snd (run (resourceIBMKmsKeyRingDelete demo.world) s))
           "123" c "finance-keys").
  - apply surjective_pairing.
  - vm_compute. reflexivity.
Defined.

(** X10: Delete undoes what Create stored: on the identifier made of a
    [key_ring_id] the validator accepts and a CRN that holds no
    [":keyRing:"], the delete request names exactly that [key_ring_id], on
    the instance named by the segment at [len-3] of that CRN. *)
Theorem X10_delete_of_external_id (m : meta) (s s' : state) (o : outcome)
      (keyRingID crn i : string) (c : kp.Client) (k : string) :
  Id (d s) = external_id keyRingID crn ->
  ResourceIBMKeyRingValidator keyRingID = true ->
  strings.Contains crn ":keyRing:" = false ->
  run (resourceIBMKmsKeyRingDelete m) s = (s', o) ->
  trace s' = (trace s ++ [EvGetResourceInstance i; EvDeleteKeyRing c k])%list ->
  k = keyRingID /\ i = instance_segment crn /\ kp.InstanceID c = instance_segment crn.
Proof.
  intros Hid Hv Hc Hrun Ht.
  destruct (Delete_requests_made_of m s s' o i c k Hrun Ht) as (Hk & Hi & Hc' & _).
  unfold ResourceIBMKeyRingValidator in Hv.
  apply andb_prop in Hv. destruct Hv as [_ Hre].
  rewrite Hid in Hk, Hi. unfold external_id in Hk, Hi.
  rewrite (Split_once ":" "keyRing:" keyRingID crn
             (Regexp_no_colon _ Hre) Hc) in Hk, Hi.
  cbn [nth] in Hk, Hi. repeat split; congruence.
Qed.

Lemma X10_delete_of_external_id_witness :
  "finance-keys" = "finance-keys" /\ "123" = instance_segment demo.crn /\
  kp.InstanceID cases.client1 = instance_segment demo.crn.
Proof.
  apply (X10_delete_of_external_id demo.world
           (demo.start demo.finance_id "" "")
           (fst (run (resourceIBMKmsKeyRingDelete demo.world)
                     (demo.start demo.finance_id "" "")))
           (snd (run (resourceIBMKmsKeyRingDelete demo.world)
                     (demo.start demo.finance_id "" "")))
           "finance-keys" demo.crn "123" cases.client1 "finance-keys").
  - reflexivity.
  - vm_compute. reflexivity.
  - vm_compute. reflexivity.
  - apply surjective_pairing.
  - vm_compute. reflexivity.
Defined.

(** X11: once Delete has issued the delete request, an answer without
    error gives [nil]; a [*kp.Error] of status 404 or 409 gives [nil]
    too; a [*kp.Error] of any other status gives the error
    " failed to Destroy key ring with error: " followed by the text of
    that error. *)
Theorem X11_delete_answers (m : meta) (s s' : state) (o : outcome)
      (h0 : list event) (c : kp.Client) (k : string) :
  run (resourceIBMKmsKeyRingDelete m) s = (s', o) ->
  trace s' = (trace s ++ h0 ++ [EvDeleteKeyRing c k])%list ->
  (DeleteKeyRing m (trace s ++ h0)%list c k = None -> o = Nil) /\
  (forall code text,
     DeleteKeyRing m (trace s ++ h0)%list c k = Some (KpError code text) ->
     ((code = 404 \/ code = 409)%Z -> o = Nil) /\
     (code <> 404 -> code <> 409 ->
      o = Failed (Errorf (" failed to Destroy key ring with error: " ++ text)))%Z).
Proof.
  intros Hrun Ht. pose proof (Delete_classifies m s s' o h0 c k Hrun Ht) as H.
  split.
  - intros Ha. now rewrite Ha in H.
  - intros code text Ha. rewrite Ha in H. split.
    + intros [-> | ->]; exact H.
    + intros H4 H9.
      apply Z.eqb_neq in H4. apply Z.eqb_neq in H9. now rewrite H4, H9 in H.
Qed.

Lemma X11_delete_answers_witness :
  let m := demo.service demo.lookup demo.list_rings
             (Some (KpError 500 "Internal Server Error")) in
  let s := demo.start demo.finance_id "" "" in
  let o := snd (run (resourceIBMKmsKeyRingDelete m) s) in
  let h := ([] ++ [EvGetResourceInstance "123"])%list in
  (DeleteKeyRing m h cases.client1 "finance-keys" = None -> o = Nil) /\
  (forall code text,
     DeleteKeyRing m h cases.client1 "finance-keys" = Some (KpError code text) ->
     ((code = 404 \/ code = 409)%Z -> o = Nil) /\
     (code <> 404 -> code <> 409 ->
      o = Failed (Errorf (" failed to Destroy key ring with error: " ++ text)))%Z).
Proof.
  intros m s o h.
  apply (X11_delete_answers m s (fst (run (resourceIBMKmsKeyRingDelete m) s)) o
           [EvGetResourceInstance "123"] cases.client1 "finance-keys").
  - apply surjective_pairing.
  - vm_compute. reflexivity.
Defined.

(** X12: when the list request of Read fails with a [*kp.Error] of a
    status other than 404 and 409, Read returns the error
    "[ERROR] Get Key Rings failed with error: " followed by the text of
    that error, and keeps the stored id and the fields. *)
Theorem X12_read_other_status (m : meta) (s s' : state) (o : outcome)
      (h0 : list event) (c : kp.Client) (code : Z) (text : string) :
  run (resourceIBMKmsKeyRingRead m) s = (s', o) ->
  trace s' = (trace s ++ h0 ++ [EvGetKeyRings c])%list ->
  GetKeyRings m (trace s ++ h0)%list c = inr (KpError code text) ->
  (code <> 404)%Z -> (code <> 409)%Z ->
  o = Failed (Errorf ("[ERROR] Get Key Rings failed with error: " ++ text)) /\
  d s' = d s.
Proof.
  intros Hrun Ht Ha H4 H9.
  pose proof (Read_classifies m s s' o h0 c Hrun Ht) as H.
  rewrite Ha in H. apply Z.eqb_neq in H4. apply Z.eqb_neq in H9.
  now rewrite H4, H9 in H.
Qed.

Lemma X12_read_other_status_witness :
  let m := demo.service demo.lookup
             (demo.list_fails (KpError 500 "Internal Server Error")) None in
  let s := demo.start demo.finance_id "123" "finance-keys" in
  snd (run (resourceIBMKmsKeyRingRead m) s)
    = Failed (Errorf ("[ERROR] Get Key Rings failed with error: " ++
                      "Internal Server Error")) /\
  d (fst (run (resourceIBMKmsKeyRingRead m) s)) = d s.
Proof.
  intros m s.
  apply (X12_read_other_status m s _ _ [EvGetResourceInstance "123"]
           cases.client1 500%Z "Internal Server Error").
  - apply surjective_pairing.
  - vm_compute. reflexivity.
  - reflexivity.
  - discriminate.
  - discriminate.
Defined.

(** ** Further properties of Create *)

(** Lets the Read at the end of a Create tell what it added to the
    requests. *)
Ltac read_trace ER H :=
  let x := fresh "x" in
  let Ht := fresh "Ht" in
  destruct (Read_requests _ _ _ _ (run_exit _ _ _ _ ER)) as (x & Ht & _);
  rewrite Ht in H.

(** X13: the instance Create looks up is the configured [instance_id]
    itself when that has at most three colon-delimited segments, so a bare
    GUID and also a value of exactly three segments, and the segment at
    [len-3] when it has more; this step never fails: whenever the session
    has both clients, Create reaches the lookup, and that lookup is for
    this instance. *)
Theorem X13_create_instance_id (m : meta) (s s' : state) (o : outcome) :
  run (resourceIBMKmsKeyRingCreate m) s = (s', o) ->
  (KeyManagementAPI m = None -> ResourceControllerV2API m = None ->
   exists h1,
     trace s' = (trace s ++ EvGetResourceInstance
                   (create_instance_id (instance_id (d s))) :: h1)%list) /\
  (forall i h1, trace s' = (trace s ++ EvGetResourceInstance i :: h1)%list ->
     i = create_instance_id (instance_id (d s))) /\
  (strings.Contains (instance_id (d s)) ":" = false ->
   create_instance_id (instance_id (d s)) = instance_id (d s)) /\
  ((len (strings.Split (instance_id (d s)) ":") <= 3)%Z ->
   create_instance_id (instance_id (d s)) = instance_id (d s)).
Proof.
  intros Hrun.
  assert (Hgo : KeyManagementAPI m = None -> ResourceControllerV2API m = None ->
            exists h1,
              trace s' = (trace s ++ EvGetResourceInstance
                            (create_instance_id (instance_id (d s))) :: h1)%list).
  { revert Hrun. destruct s as [d0 [u0 b0 i0] t0].
    unfold create_instance_id, instance_segment.
    match goal with |- _ -> ?r => remember r as cls eqn:Hcls end.
    unfold resourceIBMKmsKeyRingCreate. explode.
    all: try (finished; intros Hk Hr; cbn [trace d instance_id];
              first [ congruence
                    | rewrite <- ?app_assoc; cbn [app];
                      repeat match goal with
                             | Hb : (_ <? _)%Z = _ |- _ => rewrite Hb
                             end;
                      eexists; reflexivity
                    | range_clash ]).
    all: intros Hrun; enter_read Hrun ER;
      destruct (Read_requests _ _ _ _ (run_exit _ _ _ _ ER)) as (x & Ht & _);
      subst cls; intros Hk Hr; rewrite Ht; cbn [trace d instance_id];
      rewrite <- ?app_assoc; cbn [app];
      repeat match goal with Hb : (_ <? _)%Z = _ |- _ => rewrite Hb end;
      eexists; reflexivity. }
  split; [exact Hgo|]. split; [|split].
  - revert Hrun. destruct s as [d0 [u0 b0 i0] t0]. clear Hgo.
    unfold create_instance_id, instance_segment.
    intros Hrun i h1 Ht. revert Hrun Ht.
    unfold resourceIBMKmsKeyRingCreate. explode.
    all: try (finished; first_request Ht; cbn [d instance_id]; reflexivity).
    all: try (finished; range_clash).
    all: intros Hrun; enter_read Hrun ER; read_trace ER Ht; first_request Ht;
      cbn [d instance_id]; reflexivity.
  - intros Hc. unfold create_instance_id.
    rewrite Split_no_sep by (congruence || assumption). reflexivity.
  - intros Hl. unfold create_instance_id.
    replace (3 <? len (strings.Split (instance_id (d s)) ":"))%Z with false;
      [reflexivity | symmetry; apply Z.ltb_ge; lia].
Qed.

Lemma X13_create_instance_id_witness :
  let s := demo.start "" demo.crn "finance-keys" in
  exists h1,
    trace (fst (run (resourceIBMKmsKeyRingCreate demo.world) s))
    = (trace s ++ EvGetResourceInstance
         (create_instance_id (instance_id (d s))) :: h1)%list.
Proof.
  intros s.
  apply (proj1 (X13_create_instance_id demo.world s
                  (fst (run (resourceIBMKmsKeyRingCreate demo.world) s))
                  (snd (run (resourceIBMKmsKeyRingCreate demo.world) s))
                  (surjective_pairing _))).
  - reflexivity.
  - reflexivity.
Defined.

(** X14: the raw POST of Create is sent for the looked-up instance with
    the token of the session, to the URL [KmsEndpointURL] gave followed by
    "/api/v2/key_rings/" and the [key_ring_id]; when it fails in the
    transport Create returns the "FIX: could not execute request" error
    and asks for no creation; when it does not fail, whatever the
    response, the create request follows for the same URL, instance and
    ring. *)
Theorem X14_create_post (m : meta) (s s' : state) (o : outcome)
      (i : string) (p : Request) (h1 : list event) :
  run (resourceIBMKmsKeyRingCreate m) s = (s', o) ->
  trace s' = (trace s ++ EvGetResourceInstance i :: EvHttpPost p :: h1)%list ->
  bluemix_instance p = i /\ BluemixSession m = inl (authorization p) /\
  (exists inst resp u,
     GetResourceInstance m (trace s) i = (Some inst, resp, None) /\
     KmsEndpointURL m (kpAPI s) (endpoint_type (d s)) (InstanceExtensions inst)
       = inl u /\
     req_url p = u ++ "/api/v2/key_rings/" ++ key_ring_id (d s)) /\
  (forall e, Do m (trace s ++ [EvGetResourceInstance i])%list p = Some e ->
     o = Failed (Errorf ("FIX: could not execute request (" ++ req_url p ++
                         "): " ++ Error e))
     /\ h1 = [] /\ d s' = d s) /\
  (Do m (trace s ++ [EvGetResourceInstance i])%list p = None ->
   exists c h2,
     h1 = EvCreateKeyRing c (key_ring_id (d s)) :: h2 /\
     kp.URL c ++ "/api/v2/key_rings/" ++ key_ring_id (d s) = req_url p /\
     kp.InstanceID c = bluemix_instance p).
Proof.
  destruct s as [d0 [u0 b0 i0] t0].
  match goal with |- _ -> _ -> ?r => remember r as cls eqn:Hcls end.
  unfold resourceIBMKmsKeyRingCreate. explode.
  all: try (finished; first_request H; peel H).
  all: try (intros Hrun; enter_read Hrun ER; read_trace ER H;
            first_request H; peel H).
  all: cbn [d kpAPI trace bluemix_instance authorization req_url
            kp.URL kp.InstanceID].
  all: (split; [reflexivity|]); (split; [first [assumption | reflexivity]|]);
       (split; [eexists _, _, _; repeat split; first [eassumption | reflexivity]|]).
  all: match goal with
       | Hd : Do _ _ _ = _ |- _ =>
           split;
           [ intros e He; rewrite Hd in He;
             first [discriminate He
                   | inversion He; subst; repeat split; reflexivity]
           | intros Hn; rewrite Hd in Hn;
             first [discriminate Hn | eexists _, _; repeat split; reflexivity] ]
       end.
Qed.

Lemma X14_create_post_witness :
  let e := PlainError "connection refused" in
  let s := demo.start "" "123" "finance-keys" in
  snd (run (resourceIBMKmsKeyRingCreate (cases.post_fails e)) s)
  = Failed (Errorf ("FIX: could not execute request (" ++ req_url cases.post1 ++
                    "): " ++ Error e)).
Proof.
  intros e s.
  destruct (X14_create_post (cases.post_fails e) s
              (fst (run (resourceIBMKmsKeyRingCreate (cases.post_fails e)) s))
              (snd (run (resourceIBMKmsKeyRingCreate (cases.post_fails e)) s))
              "123" cases.post1 [])
    as (_ & _ & _ & Hf & _).
  - apply surjective_pairing.
  - vm_compute. reflexivity.
  - apply (Hf e). reflexivity.
Defined.

(** X15: when the create request of Create fails, with an error of any
    dynamic type, Create returns the error "Error while creating key
    ring" that names the URL, the instance and the key ring of the
    request; it does not list the key rings and writes no resource
    data. *)
Theorem X15_create_refused (m : meta) (s s' : state) (o : outcome)
      (i : string) (p : Request) (c : kp.Client) (k : string)
      (h1 : list event) (e : goerror) :
  run (resourceIBMKmsKeyRingCreate m) s = (s', o) ->
  trace s' = (trace s ++ [EvGetResourceInstance i; EvHttpPost p;
                          EvCreateKeyRing c k] ++ h1)%list ->
  CreateKeyRing m (trace s ++ [EvGetResourceInstance i; EvHttpPost p])%list c k
    = Some e ->
  o = Failed (Errorf ("[ERROR] Error while creating key ring (note: URL=" ++
                      kp.URL c ++ ", InstanceID=" ++ kp.InstanceID c ++
                      ", KeyRingId=" ++ k ++ "): " ++ Error e))
  /\ h1 = [] /\ d s' = d s.
Proof.
  destruct s as [d0 [u0 b0 i0] t0].
  unfold resourceIBMKmsKeyRingCreate. explode.
  all: try (finished; strip_trace H; do 3 peel H).
  all: try (intros Hrun; enter_read Hrun ER; read_trace ER H;
            strip_trace H; do 3 peel H).
  all: cbn [d trace kp.URL kp.InstanceID] in *.
  all: repeat match goal with
              | Ha : context [((_ ++ _) ++ _)%list] |- _ =>
                  rewrite <- app_assoc in Ha; cbn [app] in Ha
              end.
  all: match goal with
       | Ha : CreateKeyRing _ _ _ _ = _, Hb : CreateKeyRing _ _ _ _ = _ |- _ =>
           rewrite Ha in Hb; first [discriminate Hb | inversion Hb; subst]
       end.
  all: repeat split; reflexivity.
Qed.

Lemma X15_create_refused_witness :
  let e := KpError 409 "Conflict: key ring already exists" in
  let s := demo.start "" "123" "finance-keys" in
  let r := run (resourceIBMKmsKeyRingCreate (cases.create_fails e)) s in
  snd r = Failed (Errorf ("[ERROR] Error while creating key ring (note: URL=" ++
                      kp.URL cases.client1 ++ ", InstanceID=" ++
                      kp.InstanceID cases.client1 ++
                      ", KeyRingId=" ++ "finance-keys" ++ "): " ++ Error e))
  /\ [] = @nil event /\ d (fst r) = d s.
Proof.
  intros e s r.
  apply (X15_create_refused (cases.create_fails e) s (fst r) (snd r)
           "123" cases.post1 cases.client1 "finance-keys" [] e).
  - apply surjective_pairing.
  - vm_compute. reflexivity.
  - reflexivity.
Defined.

(** X16: when the listing that follows a successful create request fails,
    with an error of any dynamic type, Create returns the error "Error
    while fetching key ring" and stores no identifier, although the key
    ring has been created. *)
Theorem X16_create_listing_fails (m : meta) (s s' : state) (o : outcome)
      (i : string) (p : Request) (c c' : kp.Client) (k : string)
      (h1 : list event) (e : goerror) :
  run (resourceIBMKmsKeyRingCreate m) s = (s', o) ->
  trace s' = (trace s ++ [EvGetResourceInstance i; EvHttpPost p;
                          EvCreateKeyRing c k; EvGetKeyRings c'] ++ h1)%list ->
  GetKeyRings m (trace s ++ [EvGetResourceInstance i; EvHttpPost p;
                             EvCreateKeyRing c k])%list c' = inr e ->
  o = Failed (Errorf ("[ERROR] Error while fetching key ring : " ++ Error e))
  /\ h1 = [] /\ d s' = d s /\
  CreateKeyRing m (trace s ++ [EvGetResourceInstance i; EvHttpPost p])%list c k
    = None.
Proof.
  destruct s as [d0 [u0 b0 i0] t0].
  match goal with |- _ -> _ -> _ -> ?r => remember r as cls eqn:Hcls end.
  unfold resourceIBMKmsKeyRingCreate. explode.
  all: try (finished; strip_trace H; do 4 peel H).
  all: try (intros Hrun; enter_read Hrun ER; read_trace ER H;
            strip_trace H; do 4 peel H).
  all: cbn [d trace kp.URL kp.InstanceID] in *.
  all: repeat match goal with
              | Ha : context [((_ ++ _) ++ _)%list] |- _ =>
                  rewrite <- app_assoc in Ha; cbn [app] in Ha
              end.
  all: match goal with
       | Ha : GetKeyRings _ _ _ = _, Hb : GetKeyRings _ _ _ = _ |- _ =>
           rewrite Ha in Hb; first [discriminate Hb | inversion Hb; subst]
       end.
  all: repeat split; first [reflexivity | assumption].
Qed.

Lemma X16_create_listing_fails_witness :
  let e := PlainError "context deadline exceeded" in
  let m := demo.service demo.lookup (demo.list_fails e) None in
  let s := demo.start "" "123" "finance-keys" in
  let r := run (resourceIBMKmsKeyRingCreate m) s in
  snd r = Failed (Errorf ("[ERROR] Error while fetching key ring : " ++ Error e))
  /\ Id (d (fst r)) = "".
Proof.
  intros e m s r.
  destruct (X16_create_listing_fails m s (fst r) (snd r)
              "123" cases.post1 cases.client1 cases.client1 "finance-keys" [] e)
    as (Ho & _ & Hd & _).
  - apply surjective_pairing.
  - vm_compute. reflexivity.
  - reflexivity.
  - split; [exact Ho | now rewrite Hd].
Defined.

(** Brings the histories of the answers in the context to one form. *)
Ltac flat_histories :=
  repeat match goal with
         | Ha : context [((_ ++ _) ++ _)%list] |- _ =>
             rewrite <- app_assoc in Ha; cbn [app] in Ha
         end.

(** X17: Create writes resource data only after the create request and
    the listing behind it have both succeeded: a run that leaves the data
    changed has issued the four requests lookup, POST, create and list,
    with a lookup that returned an instance with a CRN. *)
Theorem X17_create_writes_late (m : meta) (s s' : state) (o : outcome) :
  run (resourceIBMKmsKeyRingCreate m) s = (s', o) ->
  d s' <> d s ->
  exists i p c k c' h1 inst resp crn rings,
    trace s' = (trace s ++ [EvGetResourceInstance i; EvHttpPost p;
                            EvCreateKeyRing c k; EvGetKeyRings c'] ++ h1)%list /\
    GetResourceInstance m (trace s) i = (Some inst, resp, None) /\
    CRN inst = Some crn /\
    CreateKeyRing m (trace s ++ [EvGetResourceInstance i; EvHttpPost p])%list c k
      = None /\
    GetKeyRings m (trace s ++ [EvGetResourceInstance i; EvHttpPost p;
                               EvCreateKeyRing c k])%list c' = inl rings.
Proof.
  destruct s as [d0 [u0 b0 i0] t0].
  match goal with |- _ -> _ -> ?r => remember r as cls eqn:Hcls end.
  unfold resourceIBMKmsKeyRingCreate. explode.
  all: try (finished; exfalso; apply H; reflexivity).
  all: intros Hrun; enter_read Hrun ER;
    destruct (Read_requests _ _ _ _ (run_exit _ _ _ _ ER)) as (x & Ht & _);
    subst cls; cbn [trace] in *; flat_histories;
    rewrite Ht; rewrite <- ?app_assoc; cbn [app];
    eexists _, _, _, _, _, _, _, _, _, _;
    repeat split; first [reflexivity | eassumption].
Qed.

Lemma X17_create_writes_late_witness :
  let s := demo.start "" "123" "finance-keys" in
  exists i p c k c' h1 inst resp crn rings,
    trace (fst (run (resourceIBMKmsKeyRingCreate demo.world) s))
    = (trace s ++ [EvGetResourceInstance i; EvHttpPost p;
                   EvCreateKeyRing c k; EvGetKeyRings c'] ++ h1)%list /\
    GetResourceInstance demo.world (trace s) i = (Some inst, resp, None) /\
    CRN inst = Some crn /\
    CreateKeyRing demo.world
      (trace s ++ [EvGetResourceInstance i; EvHttpPost p])%list c k = None /\
    GetKeyRings demo.world
      (trace s ++ [EvGetResourceInstance i; EvHttpPost p;
                   EvCreateKeyRing c k])%list c' = inl rings.
Proof.
  intros s.
  apply (X17_create_writes_late demo.world s _
           (snd (run (resourceIBMKmsKeyRingCreate demo.world) s))).
  - apply surjective_pairing.
  - vm_compute. discriminate.
Defined.

(** X18: Create panics in these cases only: the lookup returns no
    instance; or the instance has no CRN, which shows only after the key
    ring has been created and listed; or the Read it ends with panics, on
    the identifier Create has stored.  The index expression of line 81
    never panics. *)
Theorem X18_create_panics_only (m : meta) (s s' : state) (why : string) :
  run (resourceIBMKmsKeyRingCreate m) s = (s', Panicked why) ->
  (why = "invalid memory address or nil pointer dereference" /\ d s' = d s /\
   exists i resp err,
     trace s' = (trace s ++ [EvGetResourceInstance i])%list /\
     GetResourceInstance m (trace s) i = (None, resp, err))
  \/
  (why = "invalid memory address or nil pointer dereference" /\ d s' = d s /\
   exists i p c k c' inst resp rings,
     trace s' = (trace s ++ [EvGetResourceInstance i; EvHttpPost p;
                             EvCreateKeyRing c k; EvGetKeyRings c'])%list /\
     GetResourceInstance m (trace s) i = (Some inst, resp, None) /\
     CRN inst = None /\
     GetKeyRings m (trace s ++ [EvGetResourceInstance i; EvHttpPost p;
                                EvCreateKeyRing c k])%list c' = inl rings)
  \/
  (exists s1 keyRing crn x,
     run (resourceIBMKmsKeyRingRead m) s1 = (s', Panicked why) /\
     Id (d s1) = external_id keyRing crn /\
     trace s1 = (trace s ++ x)%list /\ List.length x = 4).
Proof.
  destruct s as [d0 [u0 b0 i0] t0].
  match goal with |- _ -> ?r => remember r as cls eqn:Hcls end.
  unfold resourceIBMKmsKeyRingCreate. explode.
  all: try (panicked; cbn [d trace] in *; flat_histories;
            first
              [ left; repeat split; try reflexivity;
                eexists _, _, _; split; [reflexivity | eassumption]
              | right; left; repeat split; try reflexivity;
                rewrite <- !app_assoc; cbn [app];
                eexists _, _, _, _, _, _, _, _;
                repeat split; first [reflexivity | eassumption]
              | range_clash ]).
  all: intros Hrun;
    match type of Hrun with
    | context [resourceIBMKmsKeyRingRead ?m' ?s1] =>
        destruct (resourceIBMKmsKeyRingRead m' s1) as [sR [v|oR]] eqn:ER;
        [destruct v|]
    end;
    apply pair_eq_inv in Hrun; destruct Hrun as [<- ->]; subst cls;
    right; right; eexists _, _, _, _; split; [apply run_exit; exact ER|];
    cbn [d trace Id]; split; [reflexivity|];
    rewrite <- !app_assoc; cbn [app]; split; reflexivity.
Qed.

Lemma X18_create_panics_only_witness :
  let m := demo.service cases.lookup_no_crn demo.list_rings None in
  let s := demo.start "" "123" "finance-keys" in
  let s' := fst (run (resourceIBMKmsKeyRingCreate m) s) in
  let why := "invalid memory address or nil pointer dereference" in
  (why = "invalid memory address or nil pointer dereference" /\ d s' = d s /\
   exists i resp err,
     trace s' = (trace s ++ [EvGetResourceInstance i])%list /\
     GetResourceInstance m (trace s) i = (None, resp, err))
  \/
  (why = "invalid memory address or nil pointer dereference" /\ d s' = d s /\
   exists i p c k c' inst resp rings,
     trace s' = (trace s ++ [EvGetResourceInstance i; EvHttpPost p;
                             EvCreateKeyRing c k; EvGetKeyRings c'])%list /\
     GetResourceInstance m (trace s) i = (Some inst, resp, None) /\
     CRN inst = None /\
     GetKeyRings m (trace s ++ [EvGetResourceInstance i; EvHttpPost p;
                                EvCreateKeyRing c k])%list c' = inl rings)
  \/
  (exists s1 keyRing crn x,
     run (resourceIBMKmsKeyRingRead m) s1 = (s', Panicked why) /\
     Id (d s1) = external_id keyRing crn /\
     trace s1 = (trace s ++ x)%list /\ List.length x = 4).
Proof.
  intros m s s' why. apply (X18_create_panics_only m s s' why).
  vm_compute. reflexivity.
Defined.

(** ** The identifier through Create, Read and the validator *)

Lemma Index_no_byte (c : ascii) (t a : string) :
  no_byte c a -> strings.Index a (String c t) = None.
Proof.
  induction a as [|x a IH]; intros Ha; [reflexivity|].
  destruct Ha as [Hx Ha].
  assert (Hne : Ascii.eqb c x = false) by (apply Ascii.eqb_neq; congruence).
  cbn [strings.Index strings.HasPrefix]. rewrite Hne. cbn [andb].
  now rewrite IH.
Qed.

(** The split of an identifier starts with the text before the first
    separator when that text is free of the separator's first byte. *)
Lemma Split_head (c : ascii) (t a b : string) :
  no_byte c a ->
  strings.Split (a ++ String c t ++ b) (String c t)
  = a :: strings.Split b (String c t).
Proof.
  intros Ha. rewrite Split_step, (Index_after c t a b Ha).
  now rewrite sliceTo_app, sliceFrom_app2.
Qed.

Lemma Split_not_nil (c : ascii) (t s : string) :
  (1 <= len (strings.Split s (String c t)))%Z.
Proof.
  rewrite Split_step. destruct (strings.Index s (String c t));
    unfold len; cbn [List.length]; lia.
Qed.

(** X19: a [key_ring_id] the validator accepts has between 2 and 100
    bytes and holds no colon, hence no [":keyRing:"]; and whatever the
    CRN, the split of [key_ring_id + ":keyRing:" + crn] is that
    [key_ring_id] followed by the split of the CRN, so Read and Delete
    always recover the key ring part and never find fewer than two
    parts. *)
Theorem X19_validator_and_split (keyRingID : string) :
  ResourceIBMKeyRingValidator keyRingID = true ->
  2 <= String.length keyRingID <= 100 /\
  strings.Contains keyRingID ":" = false /\
  strings.Contains keyRingID ":keyRing:" = false /\
  forall crn,
    strings.Split (external_id keyRingID crn) ":keyRing:"
    = keyRingID :: strings.Split crn ":keyRing:" /\
    (2 <= len (strings.Split (external_id keyRingID crn) ":keyRing:"))%Z.
Proof.
  intros Hv. unfold ResourceIBMKeyRingValidator in Hv.
  apply andb_prop in Hv. destruct Hv as [Hlen Hre].
  apply andb_prop in Hlen. destruct Hlen as [Hmin Hmax].
  apply Nat.leb_le in Hmin. apply Nat.leb_le in Hmax.
  unfold MinValueLength in Hmin. unfold MaxValueLength in Hmax.
  pose proof (Regexp_no_colon _ Hre) as Hnc.
  split; [lia|]. split; [|split].
  - unfold strings.Contains. now rewrite (Index_no_byte ":" "" _ Hnc).
  - unfold strings.Contains. now rewrite (Index_no_byte ":" "keyRing:" _ Hnc).
  - intros crn. unfold external_id.
    rewrite (Split_head ":" "keyRing:" keyRingID crn Hnc). split; [reflexivity|].
    pose proof (Split_not_nil ":" "keyRing:" crn) as H1.
    unfold len in *. cbn [List.length]. lia.
Qed.

Lemma X19_validator_and_split_witness :
  2 <= String.length "finance-keys" <= 100 /\
  strings.Contains "finance-keys" ":" = false /\
  strings.Contains "finance-keys" ":keyRing:" = false /\
  forall crn,
    strings.Split (external_id "finance-keys" crn) ":keyRing:"
    = "finance-keys" :: strings.Split crn ":keyRing:" /\
    (2 <= len (strings.Split (external_id "finance-keys" crn) ":keyRing:"))%Z.
Proof.
  apply (X19_validator_and_split "finance-keys"). vm_compute. reflexivity.
Defined.

(** X21: a Create whose six requests all succeed, for a [key_ring_id] the
    validator accepts that the listing shows and a CRN that holds no
    [":keyRing:"], returns [nil] and leaves the identifier
    [key_ring_id + ":keyRing:" + crn], the configured [key_ring_id]
    unchanged, and as [instance_id] the segment at [len-3] of the CRN the
    lookup returned, whatever was configured. *)
Theorem X21_create_round_trip (m : meta) (s s' : state) (o : outcome)
      (i i2 : string) (p : Request) (c c' c2 : kp.Client) (k : string)
      (inst : ResourceInstance) (resp : string) (err : option goerror)
      (crn : string) (rings rings2 : list KeyRing) :
  run (resourceIBMKmsKeyRingCreate m) s = (s', o) ->
  trace s' = (trace s ++ [EvGetResourceInstance i; EvHttpPost p;
                          EvCreateKeyRing c k; EvGetKeyRings c'] ++
                         [EvGetResourceInstance i2; EvGetKeyRings c2])%list ->
  GetResourceInstance m (trace s) i = (Some inst, resp, err) ->
  CRN inst = Some crn ->
  GetKeyRings m (trace s ++ [EvGetResourceInstance i; EvHttpPost p;
                             EvCreateKeyRing c k])%list c' = inl rings ->
  In (key_ring_id (d s)) (map ID rings) ->
  ResourceIBMKeyRingValidator (key_ring_id (d s)) = true ->
  strings.Contains crn ":keyRing:" = false ->
  GetKeyRings m (trace s ++ [EvGetResourceInstance i; EvHttpPost p;
                             EvCreateKeyRing c k; EvGetKeyRings c';
                             EvGetResourceInstance i2])%list c2 = inl rings2 ->
  o = Nil /\
  Id (d s') = external_id (key_ring_id (d s)) crn /\
  key_ring_id (d s') = key_ring_id (d s) /\
  instance_id (d s') = instance_segment crn.
Proof.
  intros Hrun Ht Hi Hcrn Hl Hin Hv Hc Hl2.
  pose proof (Create_continues m s s' o i p c c' k
                [EvGetResourceInstance i2; EvGetKeyRings c2]
                inst resp err crn rings Hrun Ht Hi Hcrn Hl) as HR.
  rewrite (find_keyRing_present _ _ Hin) in HR.
  match type of HR with run _ ?s1 = _ =>
    pose proof (Read_classifies m s1 s' o [EvGetResourceInstance i2] c2 HR) as H
  end.
  cbn [trace d Id] in H.
  rewrite <- !app_assoc in H. cbn [app] in H. cbn [app] in Ht.
  rewrite Hl2 in H. specialize (H Ht). destruct H as (Ho & HId & Hinst & Hkey & _).
  unfold ResourceIBMKeyRingValidator in Hv.
  apply andb_prop in Hv. destruct Hv as [_ Hre].
  unfold external_id in Hinst, Hkey.
  rewrite (Split_once ":" "keyRing:" _ crn (Regexp_no_colon _ Hre) Hc)
    in Hinst, Hkey.
  cbn [nth] in Hinst, Hkey. repeat split; assumption.
Qed.

Lemma X21_create_round_trip_witness :
  let s := demo.start "" "123" "finance-keys" in
  let r := run (resourceIBMKmsKeyRingCreate demo.world) s in
  snd r = Nil /\
  Id (d (fst r)) = external_id (key_ring_id (d s)) demo.crn /\
  key_ring_id (d (fst r)) = key_ring_id (d s) /\
  instance_id (d (fst r)) = instance_segment demo.crn.
Proof.
  intros s r.
  apply (X21_create_round_trip demo.world s (fst r) (snd r)
           "123" "123" cases.post1 cases.client1 cases.client1 cases.client1
           "finance-keys" demo.instance "200" None demo.crn
           (demo.rings_of [EvGetResourceInstance "123"; EvHttpPost cases.post1;
                           EvCreateKeyRing cases.client1 "finance-keys"])
           (demo.rings_of [EvGetResourceInstance "123"; EvHttpPost cases.post1;
                           EvCreateKeyRing cases.client1 "finance-keys";
                           EvGetKeyRings cases.client1;
                           EvGetResourceInstance "123"])).
  - apply surjective_pairing.
  - vm_compute. reflexivity.
  - reflexivity.
  - reflexivity.
  - reflexivity.
  - vm_compute. right. left. reflexivity.
  - vm_compute. reflexivity.
  - vm_compute. reflexivity.
  - reflexivity.
Defined.

(** ** Session and endpoint failures *)

(** X22: when the session has no Key Protect client, each of the three
    operations returns the session's error as it is, requests nothing
    and writes nothing; Create does the same when the session has no
    resource controller client; and no operation issues a request unless
    both accessors have succeeded. *)
Theorem X22_session_failures (m : meta) (s : state) :
  (forall e, KeyManagementAPI m = Some e ->
     run (resourceIBMKmsKeyRingCreate m) s = (s, Failed e) /\
     run (resourceIBMKmsKeyRingRead m) s = (s, Failed e) /\
     run (resourceIBMKmsKeyRingDelete m) s = (s, Failed e)) /\
  (forall e, KeyManagementAPI m = None -> ResourceControllerV2API m = Some e ->
     run (resourceIBMKmsKeyRingCreate m) s = (s, Failed e)) /\
  (forall op s' o,
     In op [resourceIBMKmsKeyRingCreate m; resourceIBMKmsKeyRingRead m;
            resourceIBMKmsKeyRingDelete m] ->
     run op s = (s', o) -> trace s' <> trace s ->
     KeyManagementAPI m = None /\ ResourceControllerV2API m = None).
Proof.
  split; [|split].
  - intros e He. repeat split; apply run_exit;
      [unfold resourceIBMKmsKeyRingCreate | unfold resourceIBMKmsKeyRingRead
      | unfold resourceIBMKmsKeyRingDelete];
      rewrite He; reflexivity.
  - intros e Hk He. apply run_exit. unfold resourceIBMKmsKeyRingCreate.
    rewrite Hk, He. cbv beta iota zeta delta [bind check ret get_d].
    destruct (3 <? len (strings.Split (instance_id (d s)) ":"))%Z eqn:E.
    + apply Z.ltb_lt in E. rewrite index_in_range by lia. reflexivity.
    + reflexivity.
  - intros op s' o Hop. destruct s as [d0 [u0 b0 i0] t0].
    destruct Hop as [<- | [<- | [<- | []]]].
    + unfold resourceIBMKmsKeyRingCreate. explode.
      all: try (finished; cbn [trace] in *;
                first [split; first [assumption | reflexivity] | exfalso; apply H; reflexivity]).
      all: intros _; split; first [assumption | reflexivity].
    + unfold resourceIBMKmsKeyRingRead. explode.
      all: finished; cbn [trace] in *;
           first [split; first [assumption | reflexivity] | exfalso; apply H; reflexivity].
    + unfold resourceIBMKmsKeyRingDelete. explode.
      all: finished; cbn [trace] in *;
           first [split; first [assumption | reflexivity] | exfalso; apply H; reflexivity].
Qed.

Lemma X22_session_failures_witness :
  let e := PlainError "no api key" in
  let s := demo.start demo.finance_id "123" "finance-keys" in
  run (resourceIBMKmsKeyRingCreate (cases.no_client e)) s = (s, Failed e) /\
  run (resourceIBMKmsKeyRingRead (cases.no_client e)) s = (s, Failed e) /\
  run (resourceIBMKmsKeyRingDelete (cases.no_client e)) s = (s, Failed e).
Proof.
  intros e s.
  apply (proj1 (X22_session_failures (cases.no_client e) s) e). reflexivity.
Defined.

(** X23: when [KmsEndpointURL] fails for the looked-up instance, each of
    the three operations returns its error as it is, makes no Key Protect
    request, and leaves the resource data and the shared client as they
    were. *)
Theorem X23_endpoint_failure (m : meta) (s s' : state) (o : outcome)
      (op : M Empty_set) (i : string) (h1 : list event)
      (inst : ResourceInstance) (resp : string) (e : goerror) :
  In op [resourceIBMKmsKeyRingCreate m; resourceIBMKmsKeyRingRead m;
         resourceIBMKmsKeyRingDelete m] ->
  run op s = (s', o) ->
  trace s' = (trace s ++ EvGetResourceInstance i :: h1)%list ->
  GetResourceInstance m (trace s) i = (Some inst, resp, None) ->
  KmsEndpointURL m (kpAPI s) (endpoint_type (d s)) (InstanceExtensions inst)
    = inr e ->
  o = Failed e /\ h1 = [] /\ d s' = d s /\ kpAPI s' = kpAPI s.
Proof.
  intros Hop. destruct s as [d0 [u0 b0 i0] t0].
  destruct Hop as [<- | [<- | [<- | []]]].
  - unfold resourceIBMKmsKeyRingCreate. explode.
    all: try (finished; first_request H).
    all: try (intros Hrun; enter_read Hrun ER; read_trace ER H; first_request H).
    all: cbn [d kpAPI trace] in *.
    all: match goal with
         | Ha : GetResourceInstance _ _ _ = _, Hb : GetResourceInstance _ _ _ = _ |- _ =>
             rewrite Ha in Hb; first [discriminate Hb | inversion Hb; subst]
         end.
    all: match goal with
         | Ha : KmsEndpointURL _ _ _ _ = _, Hb : KmsEndpointURL _ _ _ _ = _ |- _ =>
             rewrite Ha in Hb; first [discriminate Hb | inversion Hb; subst]
         end.
    all: repeat split; reflexivity.
  - unfold resourceIBMKmsKeyRingRead. explode.
    all: finished; first_request H.
    all: cbn [d kpAPI trace] in *.
    all: match goal with
         | Ha : GetResourceInstance _ _ _ = _, Hb : GetResourceInstance _ _ _ = _ |- _ =>
             rewrite Ha in Hb; first [discriminate Hb | inversion Hb; subst]
         end.
    all: match goal with
         | Ha : KmsEndpointURL _ _ _ _ = _, Hb : KmsEndpointURL _ _ _ _ = _ |- _ =>
             rewrite Ha in Hb; first [discriminate Hb | inversion Hb; subst]
         end.
    all: repeat split; reflexivity.
  - unfold resourceIBMKmsKeyRingDelete. explode.
    all: finished; first_request H.
    all: cbn [d kpAPI trace] in *.
    all: match goal with
         | Ha : GetResourceInstance _ _ _ = _, Hb : GetResourceInstance _ _ _ = _ |- _ =>
             rewrite Ha in Hb; first [discriminate Hb | inversion Hb; subst]
         end.
    all: match goal with
         | Ha : KmsEndpointURL _ _ _ _ = _, Hb : KmsEndpointURL _ _ _ _ = _ |- _ =>
             rewrite Ha in Hb; first [discriminate Hb | inversion Hb; subst]
         end.
    all: repeat split; reflexivity.
Qed.

Lemma X23_endpoint_failure_witness :
  let e := PlainError "[ERROR] Error Parsing KMS EndpointURL" in
  let s := demo.start demo.finance_id "123" "finance-keys" in
  let r := run (resourceIBMKmsKeyRingRead (cases.no_endpoint e)) s in
  snd r = Failed e /\ [] = @nil event /\ d (fst r) = d s /\ kpAPI (fst r) = kpAPI s.
Proof.
  intros e s r.
  apply (X23_endpoint_failure (cases.no_endpoint e) s (fst r) (snd r)
           (resourceIBMKmsKeyRingRead (cases.no_endpoint e))
           "123" [] demo.instance "200" e).
  - right. left. reflexivity.
  - apply surjective_pairing.
  - vm_compute. reflexivity.
  - reflexivity.
  - reflexivity.
Defined.

(** X24: on every stored id that holds no [":keyRing:"], Read returns the
    "Incorrect ID" error that quotes the id, requests nothing and writes
    nothing. *)
Theorem X24_read_incorrect_id (m : meta) (s : state) :
  KeyManagementAPI m = None ->
  strings.Contains (Id (d s)) ":keyRing:" = false ->
  run (resourceIBMKmsKeyRingRead m) s =
  (s, Failed (Errorf ("[ERROR] Incorrect ID " ++ Id (d s) ++
        ": Id should be a combination of keyRingID:keyRing:InstanceCRN"))).
Proof. exact (Read_without_separator m s). Qed.

Lemma X24_read_incorrect_id_witness :
  let s := demo.start "" "123" "finance-keys" in
  run (resourceIBMKmsKeyRingRead demo.world) s =
  (s, Failed (Errorf ("[ERROR] Incorrect ID " ++ "" ++
        ": Id should be a combination of keyRingID:keyRing:InstanceCRN"))).
Proof.
  intros s. apply (X24_read_incorrect_id demo.world s); reflexivity.
Defined.

(** X25: Read asks for the instance and then for the key rings, stopping
    at the first failure; it never posts, creates or deletes; and a Read
    that returns [nil] has issued both requests. *)
Theorem X25_read_requests (m : meta) (s s' : state) (o : outcome) :
  run (resourceIBMKmsKeyRingRead m) s = (s', o) ->
  exists x, trace s' = (trace s ++ x)%list /\
    (exists n, map kind_of x = firstn n read_plan) /\
    (o = Nil -> map kind_of x = read_plan) /\
    count_kind Post x = 0 /\ count_kind CreateRing x = 0 /\
    count_kind DeleteRing x = 0.
Proof.
  intros Hrun.
  destruct (Read_requests m s s' o Hrun) as (x & Ht & [n Hn] & Hnil).
  exists x. split; [exact Ht|]. split; [now exists n|]. split; [exact Hnil|].
  rewrite !count_kind_map, Hn. unfold read_plan.
  do 3 (destruct n as [|n]; [cbn; repeat split|]). cbn. repeat split.
Qed.

Lemma X25_read_requests_witness :
  let s := demo.start demo.finance_id "" "" in
  let r := run (resourceIBMKmsKeyRingRead demo.world) s in
  exists x, trace (fst r) = (trace s ++ x)%list /\
    (exists n, map kind_of x = firstn n read_plan) /\
    (snd r = Nil -> map kind_of x = read_plan) /\
    count_kind Post x = 0 /\ count_kind CreateRing x = 0 /\
    count_kind DeleteRing x = 0.
Proof.
  intros s r. apply (X25_read_requests demo.world s (fst r) (snd r)).
  apply surjective_pairing.
Defined.

(** X26: when the lookup of Create returns an error together with an
    instance, Create returns the "Error retrieving resource instance"
    error, requests nothing more and writes nothing. *)
Theorem X26_create_lookup_error (m : meta) (s s' : state) (o : outcome)
      (i : string) (h1 : list event) (inst : ResourceInstance)
      (resp : string) (e : goerror) :
  run (resourceIBMKmsKeyRingCreate m) s = (s', o) ->
  trace s' = (trace s ++ EvGetResourceInstance i :: h1)%list ->
  GetResourceInstance m (trace s) i = (Some inst, resp, Some e) ->
  o = Failed (Errorf ("[ERROR] Error retrieving resource instance: " ++
                      Error e ++ " with resp code: " ++ resp))
  /\ h1 = [] /\ d s' = d s /\ kpAPI s' = kpAPI s.
Proof.
  destruct s as [d0 [u0 b0 i0] t0].
  unfold resourceIBMKmsKeyRingCreate. explode.
  all: try (finished; first_request H).
  all: try (intros Hrun; enter_read Hrun ER; read_trace ER H; first_request H).
  all: cbn [d kpAPI trace] in *.
  all: match goal with
       | Ha : GetResourceInstance _ _ _ = _, Hb : GetResourceInstance _ _ _ = _ |- _ =>
           rewrite Ha in Hb; first [discriminate Hb | inversion Hb; subst]
       end.
  all: repeat split; reflexivity.
Qed.

Lemma X26_create_lookup_error_witness :
  let e := PlainError "Internal Server Error" in
  let m := demo.service (cases.lookup_partial e) demo.list_rings None in
  let s := demo.start "" "123" "finance-keys" in
  let r := run (resourceIBMKmsKeyRingCreate m) s in
  snd r = Failed (Errorf ("[ERROR] Error retrieving resource instance: " ++
                          Error e ++ " with resp code: " ++ "500"))
  /\ [] = @nil event /\ d (fst r) = d s /\ kpAPI (fst r) = kpAPI s.
Proof.
  intros e m s r.
  apply (X26_create_lookup_error m s (fst r) (snd r) "123" [] demo.instance "500" e).
  - apply surjective_pairing.
  - vm_compute. reflexivity.
  - reflexivity.
Defined.

(** ** Stopping at the first failure *)

(** Finds the place of a request in the requests of a finished run:
    [H : requests = h ++ ev :: r]. *)
Ltac locate H :=
  lazymatch type of H with
  | ?x = (?h ++ _ :: _)%list =>
      tryif is_var x then idtac
      else
        (let a := fresh "a" in
         let h' := fresh "h" in
         destruct h as [|a h']; cbn [app] in H;
         apply list_eq_inv in H; cbn iota in H;
         [ first [contradiction
                 | let E := fresh "E" in destruct H as [E H]; subst]
         | first [contradiction
                 | let E := fresh "E" in destruct H as [E H]; subst a;
                   locate H] ])
  end.

(** The answer the run has had to the request found contradicts
    [Hf : answer_failed _ _ _ = true]. *)
Ltac answered Hf :=
  exfalso; flat_histories; rewrite ?app_nil_r in Hf; cbn [answer_failed] in Hf;
  try match goal with
      | Ha : GetResourceInstance _ _ _ = _ |- _ => rewrite Ha in Hf
      end;
  try match goal with Ha : Do _ _ _ = _ |- _ => rewrite Ha in Hf end;
  try match goal with Ha : CreateKeyRing _ _ _ _ = _ |- _ => rewrite Ha in Hf end;
  try match goal with Ha : GetKeyRings _ _ _ = _ |- _ => rewrite Ha in Hf end;
  try match goal with Ha : DeleteKeyRing _ _ _ _ = _ |- _ => rewrite Ha in Hf end;
  cbv beta iota zeta delta [is_nil negb orb] in Hf; discriminate Hf.

(** Read issues nothing after a request that has failed. *)
Lemma Read_stops (m : meta) (s s' : state) (o : outcome)
      (h0 : list event) (ev : event) (h1 : list event) :
  run (resourceIBMKmsKeyRingRead m) s = (s', o) ->
  trace s' = (trace s ++ h0 ++ ev :: h1)%list ->
  answer_failed m (trace s ++ h0)%list ev = true ->
  h1 = [].
Proof.
  destruct s as [d0 [u0 b0 i0] t0].
  unfold resourceIBMKmsKeyRingRead. explode.
  all: finished; strip_trace H; locate H; cbn [trace] in H0.
  all: first [reflexivity | answered H0].
Qed.

(** Create issues nothing after a request that has failed. *)
Lemma Create_stops (m : meta) (s s' : state) (o : outcome)
      (h0 : list event) (ev : event) (h1 : list event) :
  run (resourceIBMKmsKeyRingCreate m) s = (s', o) ->
  trace s' = (trace s ++ h0 ++ ev :: h1)%list ->
  answer_failed m (trace s ++ h0)%list ev = true ->
  h1 = [].
Proof.
  destruct s as [d0 [u0 b0 i0] t0].
  unfold resourceIBMKmsKeyRingCreate. explode.
  all: try (finished; strip_trace H; locate H; cbn [trace] in H0;
            first [reflexivity | answered H0]).
  all: intros Hrun; enter_read Hrun ER;
    destruct (Read_requests _ _ _ _ (run_exit _ _ _ _ ER)) as (x & Ht & _);
    pose proof Ht as Ht'; rewrite Ht in H; strip_trace H; locate H;
    cbn [trace] in H0.
  all: first
         [ answered H0
         | eapply (Read_stops _ _ _ _ _ _ _ (run_exit _ _ _ _ ER));
           [ rewrite Ht', H; reflexivity
           | cbn [trace]; rewrite <- !app_assoc; cbn [app]; exact H0 ] ].
Qed.

(** C7, as corrected: the requests of every Create are an initial part of
    the fixed sequence lookup, raw POST, create-key-ring, list-key-rings,
    lookup, list-key-rings (the last two issued by the Read that Create
    ends with), and Create stops at the first request that fails: no
    request follows one whose answer is a failure.  So at most one
    create-key-ring and at most two list-key-rings requests are issued,
    none twice for a retry, and a Create that returns [nil] has issued
    all six. *)
Theorem C7_create_requests (m : meta) (s : state) :
  let x := requests (resourceIBMKmsKeyRingCreate m) s in
  (exists n, map kind_of x = firstn n create_plan) /\
  count_kind CreateRing x <= 1 /\ count_kind ListRings x <= 2 /\
  (snd (run (resourceIBMKmsKeyRingCreate m) s) = Nil -> map kind_of x = create_plan) /\
  (forall h0 ev h1,
     x = (h0 ++ ev :: h1)%list ->
     answer_failed m (trace s ++ h0)%list ev = true ->
     h1 = []).
Proof.
  unfold requests.
  destruct (run (resourceIBMKmsKeyRingCreate m) s) as [s' o] eqn:Hrun.
  pose proof (Create_requests m s s' o Hrun) as (x & Ht & [n Hp] & Hn).
  cbn [fst snd]. rewrite Ht, skipn_length_app. cbv zeta.
  rewrite !count_kind_map, Hp.
  split; [now exists n|].
  destruct (firstn_create_plan n) as [H1 H2].
  split; [exact H1|]. split; [exact H2|]. split; [now rewrite <- Hp|].
  intros h0 ev h1 Hx Hf.
  apply (Create_stops m s s' o h0 ev h1 Hrun); [now rewrite Ht, Hx | exact Hf].
Qed.

Lemma C7_create_requests_witness :
  map kind_of (requests (resourceIBMKmsKeyRingCreate demo.world)
                        (demo.start "" demo.crn "finance-keys"))
  = create_plan /\
  requests (resourceIBMKmsKeyRingCreate
              (cases.post_fails (PlainError "connection refused")))
           (demo.start "" "123" "finance-keys")
  = [EvGetResourceInstance "123"; EvHttpPost cases.post1].
Proof.
  split.
  - apply (C7_create_requests demo.world (demo.start "" demo.crn "finance-keys")).
    reflexivity.
  - destruct (C7_create_requests
                (cases.post_fails (PlainError "connection refused"))
                (demo.start "" "123" "finance-keys"))
      as (_ & _ & _ & _ & Hstop).
    assert (Hx : exists h1,
              requests (resourceIBMKmsKeyRingCreate
                          (cases.post_fails (PlainError "connection refused")))
                       (demo.start "" "123" "finance-keys")
              = ([EvGetResourceInstance "123"] ++ EvHttpPost cases.post1 :: h1)%list)
      by (eexists; vm_compute; reflexivity).
    destruct Hx as [h1 Hx]. rewrite Hx.
    rewrite (Hstop [EvGetResourceInstance "123"] (EvHttpPost cases.post1) h1 Hx);
      reflexivity.
Defined.

(** C7 as stated fails: a successful Create lists the key rings twice and
    also looks the instance up twice and posts once; a Create that stops
    at the instance lookup never asks for the creation. *)
Lemma C7_counterexample :
  let ok := requests (resourceIBMKmsKeyRingCreate demo.world)
                     (demo.start "" demo.crn "finance-keys") in
  let early := requests (resourceIBMKmsKeyRingCreate
                           (demo.service demo.lookup_gone demo.list_rings None))
                        (demo.start "" demo.crn "finance-keys") in
  count_kind CreateRing ok = 1 /\ count_kind ListRings ok = 2 /\
  count_kind Lookup ok = 2 /\ count_kind Post ok = 1 /\
  count_kind CreateRing early = 0 /\ count_kind ListRings early = 0.
Proof. vm_compute. repeat split. Qed.
